(** * ethbridge/bisectionChallenge.go: the bisection-challenge connection

    A shallow embedding of [packages/arb-validator/ethbridge/bisectionChallenge.go]:
    the event synchronizer ([StartConnection], [processEvents]) and the
    move submission ([chooseSegment]).

    Go values are modelled as follows.
    - 32-byte hashes and 20-byte addresses are integers ([Z]); they are
      only ever compared and copied.
    - [*big.Int] is [Z]; [uint16] is a [Z] packaged with its range.
    - A Go [error] result is [option error] ([None] is [nil]); a
      [(value, error)] result is [res].
    - Channel sends, calls to the Ethereum client and calls to the
      transaction sink are recorded, in program order, in an effect trace.
    - A run-time panic is the [Panicked] outcome. *)

From Stdlib Require Import String ZArith List Bool Lia Sorted Permutation.
Import ListNotations.
Local Open Scope Z_scope.

(** ** Go results *)

Inductive error : Type :=
| ErrCode (code : Z)
| ErrWrap (cause : error) (msg : string).

(** [errors2.Wrap(err, msg)] *)
Definition Wrap (err : error) (msg : string) : error := ErrWrap err msg.

Inductive res (A : Type) : Type :=
| OK (a : A)
| ERR (e : error).
Arguments OK {A} a.
Arguments ERR {A} e.

Inductive panic : Type :=
| IndexOutOfRange
| InvalidInput
| NilPointer.

Inductive outcome (A : Type) : Type :=
| Done (a : A)
| Panicked (p : panic).
Arguments Done {A} a.
Arguments Panicked {A} p.

(** ** go-ethereum and arb-util data *)

Module ethcommon.
Definition Hash := Z.
Definition Address := Z.
End ethcommon.

Module common.
Definition Hash := Z.
Definition Address := Z.
Definition NewHashFromEth (h : ethcommon.Hash) : Hash := h.
Definition NewAddressFromEth (a : ethcommon.Address) : Address := a.
Record TimeTicks := { Val : Z }.
End common.

Module types.
  (** [types.Header]; [Hash] stands for the value of the method [Hash()]. *)
Record Header := { Number : Z; Hash : ethcommon.Hash }.

Record Log := {
    Address : ethcommon.Address;
    Topics : list ethcommon.Hash;
    Data : list Z;
    BlockNumber : Z;
    TxHash : ethcommon.Hash;
    BlockHash : ethcommon.Hash
  }.
End types.

Module ethereum.
  (** [ethereum.FilterQuery]; a [nil] block bound is [None]. *)
Record FilterQuery := {
    FromBlock : option Z;
    ToBlock : option Z;
    Addresses : list ethcommon.Address;
    Topics : list (list ethcommon.Hash)
  }.
End ethereum.

Module executionchallenge.
  (** [BisectionChallengeContinued], the decoded "Continued" event. *)
Record BisectionChallengeContinued := {
    SegmentIndex : Z;
    DeadlineTicks : Z
  }.
End executionchallenge.

Module arbbridge.
Record ContinueChallengeEvent := {
    SegmentIndex : Z;
    Deadline : common.TimeTicks
  }.

Record Notification := {
    BlockHeader : common.Hash;
    BlockHeight : Z;
    VMID : common.Address;
    Event : ContinueChallengeEvent;
    TxHash : ethcommon.Hash
  }.
End arbbridge.

(** [bind.TransactOpts]: the signer and the context of the call. *)
Record TransactOpts := { From : ethcommon.Address; Context : Z }.

(** A submitted transaction, as returned by the contract binding. *)
Record Transaction := { txId : Z }.

(** The arguments of the contract method [ChooseSegment]. *)
Record Move := {
  moveOpts : TransactOpts;
  moveSegment : Z;
  moveProof : list common.Hash;
  moveRoot : common.Hash;
  moveLeaf : common.Hash
}.

(** ** Effects *)

Inductive Effect : Type :=
| CallHeaderByNumber
| CallHeaderByHash (h : ethcommon.Hash)
| CallFilterLogs (q : ethereum.FilterQuery)
| CallSubscribeFilterLogs (q : ethereum.FilterQuery)
| SendOut (n : arbbridge.Notification)
| SendErr (e : error)
| Subscribed
| Unsubscribe
| Spawn
| CallChooseSegment (m : Move)
| CallWaitForReceipt (tx : Transaction).

Definition Trace := list Effect.

(** A computation appends to the trace and either finishes or panics. *)
Definition M (A : Type) : Type := (Trace * outcome A)%type.

Definition ret {A} (a : A) : M A := ([], Done a).

Definition bind {A B} (m : M A) (k : A -> M B) : M B :=
  match m with
  | (t, Done a) => let (t', r) := k a in (t ++ t', r)
  | (t, Panicked p) => (t, Panicked p)
  end.

Definition emit (e : Effect) : M unit := ([e], Done tt).

Definition throw {A} (p : panic) : M A := ([], Panicked p).

Definition lift {A} (o : outcome A) : M A := ([], o).

Notation "x <- m ;; k" := (bind m (fun x => k))
  (at level 61, m at next level, right associativity).
Notation "m ;;; k" := (bind m (fun _ => k))
  (at level 61, right associativity).

Definition trace_of {A} (m : M A) : Trace := fst m.
Definition result_of {A} (m : M A) : outcome A := snd m.

(** The notifications sent on [outChan], in order. *)
Fixpoint sent (t : Trace) : list arbbridge.Notification :=
  match t with
  | [] => []
  | SendOut n :: t' => n :: sent t'
  | _ :: t' => sent t'
  end.

(** The errors sent on [errChan], in order. *)
Fixpoint errors (t : Trace) : list error :=
  match t with
  | [] => []
  | SendErr e :: t' => e :: errors t'
  | _ :: t' => errors t'
  end.

Definition is_read (e : Effect) : bool :=
  match e with
  | CallHeaderByNumber | CallHeaderByHash _
  | CallFilterLogs _ | CallSubscribeFilterLogs _ => true
  | _ => false
  end.

(** The calls made to the Ethereum client, in order. *)
Definition reads (t : Trace) : Trace := filter is_read t.

(** The moves handed to the transaction sink, in order. *)
Fixpoint submitted (t : Trace) : list Move :=
  match t with
  | [] => []
  | CallChooseSegment m :: t' => m :: submitted t'
  | _ :: t' => submitted t'
  end.

(** ** The Ethereum client

    The client is the external authoritative log.  [chainLogs] is the
    whole log in append order, including the entries confirmed after the
    head was read.  [chainHead] is the header of the head block when it
    is read and [headAtQuery] the height the chain has reached when the
    historical query is served.  [headerOf] is the header lookup by
    block hash; the three [..Fault] fields make the corresponding
    request fail. *)

Record Client := {
  chainHead : types.Header;
  headAtQuery : Z;
  chainLogs : list types.Log;
  headerOf : ethcommon.Hash -> res types.Header;
  headFault : option error;
  filterFault : option error;
  subscribeFault : option error
}.

Definition mem_hash (h : Z) (hs : list Z) : bool := existsb (Z.eqb h) hs.

(** Positional topic match: an empty alternative list is a wildcard, and
    a log with fewer topics than the query has positions does not match. *)
Fixpoint topics_match (qs : list (list ethcommon.Hash)) (ts : list ethcommon.Hash) : bool :=
  match qs, ts with
  | [], _ => true
  | _ :: _, [] => false
  | alts :: qs', t :: ts' =>
      (match alts with [] => true | _ => mem_hash t alts end)
      && topics_match qs' ts'
  end.

Definition address_match (addrs : list ethcommon.Address) (a : ethcommon.Address) : bool :=
  match addrs with [] => true | _ => mem_hash a addrs end.

Definition from_ok (q : ethereum.FilterQuery) (l : types.Log) : bool :=
  match ethereum.FromBlock q with
  | None => true
  | Some lo => lo <=? types.BlockNumber l
  end.

Definition to_ok (latest : Z) (q : ethereum.FilterQuery) (l : types.Log) : bool :=
  match ethereum.ToBlock q with
  | None => types.BlockNumber l <=? latest
  | Some hi => types.BlockNumber l <=? hi
  end.

(** The upper bound of a subscription: none when [ToBlock] is [nil]. *)
Definition up_to (q : ethereum.FilterQuery) (l : types.Log) : bool :=
  match ethereum.ToBlock q with
  | None => true
  | Some hi => types.BlockNumber l <=? hi
  end.

Definition criteria_match (q : ethereum.FilterQuery) (l : types.Log) : bool :=
  address_match (ethereum.Addresses q) (types.Address l)
  && topics_match (ethereum.Topics q) (types.Topics l).

(** [client.HeaderByNumber(ctx, nil)] *)
Definition HeaderByNumber (cl : Client) : M (res types.Header) :=
  emit CallHeaderByNumber ;;;
  ret (match headFault cl with
       | Some e => ERR e
       | None => OK (chainHead cl)
       end).

(** [client.HeaderByHash(ctx, hash)].  The context is not modelled: a
    request is served whether or not the context has been cancelled. *)
Definition HeaderByHash (cl : Client) (h : ethcommon.Hash) : M (res types.Header) :=
  emit (CallHeaderByHash h) ;;; ret (headerOf cl h).

(** [client.FilterLogs(ctx, q)]: the confirmed entries in the block
    range of [q] that meet its criteria, in log order.  A [nil]
    [ToBlock] stands for the head at the time the query is served. *)
Definition FilterLogs (cl : Client) (q : ethereum.FilterQuery) : M (res (list types.Log)) :=
  emit (CallFilterLogs q) ;;;
  ret (match filterFault cl with
       | Some e => ERR e
       | None =>
           OK (filter (fun l => criteria_match q l && from_ok q l
                                && to_ok (headAtQuery cl) q l)
                      (chainLogs cl))
       end).

(** The entries a live subscription for [q] delivers on its channel, in
    log order, each once: those in the block range of [q] that meet the
    criteria. *)
Definition subscriptionFeed (cl : Client) (q : ethereum.FilterQuery) : list types.Log :=
  filter (fun l => criteria_match q l && from_ok q l && up_to q l) (chainLogs cl).

(** [client.SubscribeFilterLogs(ctx, q, logChan)]; the result is the
    subscription error, if any. *)
Definition SubscribeFilterLogs (cl : Client) (q : ethereum.FilterQuery) : M (option error) :=
  emit (CallSubscribeFilterLogs q) ;;;
  match subscribeFault cl with
  | Some e => ret (Some e)
  | None => emit Subscribed ;;; ret None
  end.

(** ** The contract binding and the embedded challenge

    The generated binding [executionchallenge.BisectionChallenge], the
    embedded [challenge] with its [StartConnection] and [waitForReceipt]
    are not part of this file of the repository; they are parameters. *)

Record BisectionChallengeBinding := {
  ParseContinued : types.Log -> res executionchallenge.BisectionChallengeContinued;
  ChooseSegment : Move -> res Transaction
}.

Record challenge := {
  address : ethcommon.Address;
  client : Client;
  auth : TransactOpts;
  (** [executionchallenge.NewBisectionChallenge(address, client)] *)
  NewBisectionChallenge : res BisectionChallengeBinding;
  (** [challenge.StartConnection(ctx, outChan, errChan)] *)
  baseStartConnection : M (option error);
  (** [challenge.waitForReceipt(ctx, tx, name)] *)
  waitForReceipt : Transaction -> option error
}.

Record bisectionChallenge := {
  base : challenge;
  BisectionChallenge : option BisectionChallengeBinding
}.

(** ** The commitment tree *)

Module MerkleTree.
Section Tree.

(** The combining hash of two children and the padding leaf. *)
Variable hashPair : common.Hash -> common.Hash -> common.Hash.
Variable sentinel : common.Hash.

(** The smallest power of two that is at least [n] (1 for [n <= 1]). *)
Definition nextPow2 (n : nat) : nat := Nat.pow 2 (Nat.log2_up n).

Definition pad (segments : list common.Hash) : list common.Hash :=
  (segments ++ repeat sentinel (nextPow2 (length segments) - length segments))%list.

Fixpoint getNextLayer (layer : list common.Hash) : list common.Hash :=
  match layer with
  | a :: b :: rest => hashPair a b :: getNextLayer rest
  | _ => layer
  end.

Fixpoint buildLayers (fuel : nat) (layer : list common.Hash) : list (list common.Hash) :=
  match fuel with
  | O => [layer]
  | S fuel' =>
      match layer with
      | [] | [_] => [layer]
      | _ => layer :: buildLayers fuel' (getNextLayer layer)
      end
  end.

Record t := {
  size : nat;
  layers : list (list common.Hash)
}.

(** Modelled from the spec: [NewMerkleTree] (spec [build]) is missing from
    the sources.  It fails with [InvalidInput] on the empty sequence;
    otherwise it builds a perfect binary tree over the leaves padded with
    the sentinel to the next power of two, each inner node being the hash
    of its two children. *)
Definition NewMerkleTree (segments : list common.Hash) : outcome t :=
  match segments with
  | [] => Panicked InvalidInput
  | _ =>
      Done {| size := length segments;
              layers := buildLayers (length (pad segments)) (pad segments) |}
  end.

(** Modelled from the spec: [GetRoot] (spec [root]) is missing from the
    sources.  It is the single value of the top layer. *)
Definition GetRoot (tree : t) : common.Hash :=
  hd sentinel (last (layers tree) []).

(** Modelled from the spec: [GetNode] (spec [leafValue]) is missing from
    the sources.  It fails with [IndexOutOfRange] if
    [index >= segments.length]. *)
Definition GetNode (tree : t) (index : Z) : outcome common.Hash :=
  if (0 <=? index) && (index <? Z.of_nat (size tree)) then
    Done (nth (Z.to_nat index) (hd [] (layers tree)) sentinel)
  else Panicked IndexOutOfRange.

(** The sibling of position [i] in each layer below the root, bottom up. *)
Fixpoint siblings (ls : list (list common.Hash)) (i : nat) : list common.Hash :=
  match ls with
  | [] | [_] => []
  | layer :: above =>
      nth (if Nat.even i then S i else Nat.pred i) layer sentinel
      :: siblings above (Nat.div2 i)
  end.

(** Modelled from the spec: [GetProofFlat] (spec [proof]) is missing from
    the sources.  It fails with [IndexOutOfRange] if
    [index >= segments.length]; otherwise it is the sibling path from the
    leaf to the root, bottom to top, as one sequence of digests. *)
Definition GetProofFlat (tree : t) (index : Z) : outcome (list common.Hash) :=
  if (0 <=? index) && (index <? Z.of_nat (size tree)) then
    Done (siblings (layers tree) (Z.to_nat index))
  else Panicked IndexOutOfRange.

(** Recomputing the root from a leaf, its position and its proof. *)
Fixpoint recompute (proof : list common.Hash) (i : nat) (node : common.Hash) : common.Hash :=
  match proof with
  | [] => node
  | s :: proof' =>
      recompute proof' (Nat.div2 i)
        (if Nat.even i then hashPair node s else hashPair s node)
  end.

End Tree.
End MerkleTree.

(** ** Machine integers *)

(** Go's [uint16]. *)
Record uint16 := {
  u16 : Z;
  u16_range : (0 <=? u16) && (u16 <? 65536) = true
}.

(** [int64(x)] for an integer [x]: reduction to the signed 64-bit range. *)
Definition int64 (x : Z) : Z := (x + 2 ^ 63) mod 2 ^ 64 - 2 ^ 63.

(** [int(x)] on a 64-bit platform. *)
Definition int (x : Z) : Z := int64 x.

(** [big.NewInt(x)] *)
Definition bigNewInt (x : Z) : Z := x.

(** ** A scripted chain *)

Module Script.

Definition ID : ethcommon.Hash := 77.
Definition vm : ethcommon.Address := 1000.

Definition logAt (blk : Z) (topic : Z) : types.Log :=
  {| types.Address := vm; types.Topics := [topic]; types.Data := [];
     types.BlockNumber := blk; types.TxHash := 500 + blk;
     types.BlockHash := 100 + blk |}.

Definition chain : Client :=
  {| chainHead := {| types.Number := 6; types.Hash := 106 |};
     headAtQuery := 9;
     chainLogs := [logAt 2 ID; logAt 5 ID; logAt 9 ID];
     headerOf := fun h => OK {| types.Number := h - 100; types.Hash := h |};
     headFault := None; filterFault := None; subscribeFault := None |}.

Definition binding : BisectionChallengeBinding :=
  {| ParseContinued := fun l =>
       OK {| executionchallenge.SegmentIndex := types.BlockNumber l;
             executionchallenge.DeadlineTicks := 10 * types.BlockNumber l |};
     ChooseSegment := fun m => OK {| txId := moveSegment m |} |}.

Definition conn (cl : Client) : bisectionChallenge :=
  {| base := {| address := vm; client := cl;
                auth := {| From := 42; Context := 0 |};
                NewBisectionChallenge := OK binding;
                baseStartConnection := ret None;
                waitForReceipt := fun _ => None |};
     BisectionChallenge := None |}.

(** The same chain behind a client whose header lookups fail. *)
Definition offlineChain : Client :=
  {| chainHead := chainHead chain;
     headAtQuery := headAtQuery chain;
     chainLogs := chainLogs chain;
     headerOf := fun _ => ERR (ErrCode 404);
     headFault := None; filterFault := None; subscribeFault := None |}.

(** The same chain behind a client that cannot report its head. *)
Definition headlessChain : Client :=
  {| chainHead := chainHead chain;
     headAtQuery := headAtQuery chain;
     chainLogs := chainLogs chain;
     headerOf := headerOf chain;
     headFault := Some (ErrCode 503); filterFault := None; subscribeFault := None |}.

(** The same chain behind a client that cannot resolve block 105. *)
Definition flakyChain : Client :=
  {| chainHead := chainHead chain;
     headAtQuery := headAtQuery chain;
     chainLogs := chainLogs chain;
     headerOf := fun h =>
       if h =? 105 then ERR (ErrCode 404)
       else OK {| types.Number := h - 100; types.Hash := h |};
     headFault := None; filterFault := None; subscribeFault := None |}.

(** A connection over the headless client whose embedded challenge has
    opened a subscription and started a task of its own. *)
Definition busy : bisectionChallenge :=
  {| base := {| address := vm; client := headlessChain;
                auth := {| From := 42; Context := 0 |};
                NewBisectionChallenge := OK binding;
                baseStartConnection := ([Subscribed; Spawn], Done None);
                waitForReceipt := fun _ => None |};
     BisectionChallenge := None |}.

(** A toy combining hash for the commitment tree. *)
Definition mix (a b : common.Hash) : common.Hash := 31 * a + b + 1.

Definition u16_2 : uint16 := {| u16 := 2; u16_range := eq_refl |}.
Definition u16_4 : uint16 := {| u16 := 4; u16_range := eq_refl |}.
Definition u16_0 : uint16 := {| u16 := 0; u16_range := eq_refl |}.

End Script.

(** ** The connection *)

Section Bridge.

Set Default Proof Using "Type".

(** The digest of the "Continued" event signature.  [init] computes it
    from [executionchallenge.BisectionChallengeABI], which is not part of
    this file of the repository, so it is a parameter. *)
Variable continuedChallengeID : ethcommon.Hash.

(** The combining hash and the padding leaf of the commitment tree. *)
Variable hashPair : common.Hash -> common.Hash -> common.Hash.
Variable sentinel : common.Hash.

(** Drops the parameters of the section that the goal does not mention. *)
Ltac tidy :=
  try clear hashPair; try clear sentinel; try clear continuedChallengeID.

Definition setupContracts (c : bisectionChallenge) : bisectionChallenge * option error :=
  match NewBisectionChallenge (base c) with
  | ERR err => (c, Some (Wrap err "Failed to connect to ChallengeManager"))
  | OK challengeManagerContract =>
      ({| base := base c; BisectionChallenge := Some challengeManagerContract |}, None)
  end.

(** [log.Topics[0]] *)
Definition firstTopic (l : types.Log) : outcome ethcommon.Hash :=
  match types.Topics l with
  | [] => Panicked IndexOutOfRange
  | t :: _ => Done t
  end.

Definition mkNotification (c : bisectionChallenge) (header : types.Header)
    (contChal : executionchallenge.BisectionChallengeContinued) (l : types.Log)
    : arbbridge.Notification :=
  {| arbbridge.BlockHeader := common.NewHashFromEth (types.Hash header);
     arbbridge.BlockHeight := types.Number header;
     arbbridge.VMID := common.NewAddressFromEth (address (base c));
     arbbridge.Event :=
       {| arbbridge.SegmentIndex := executionchallenge.SegmentIndex contChal;
          arbbridge.Deadline :=
            {| common.Val := executionchallenge.DeadlineTicks contChal |} |};
     arbbridge.TxHash := types.TxHash l |}.

Definition processEvents (c : bisectionChallenge) (l : types.Log) : M (option error) :=
  r <- HeaderByHash (client (base c)) (types.BlockHash l) ;;
  match r with
  | ERR err => ret (Some err)
  | OK header =>
      t0 <- lift (firstTopic l) ;;
      if t0 =? continuedChallengeID then
        match BisectionChallenge c with
        | None => throw NilPointer
        | Some b =>
            match ParseContinued b l with
            | ERR err => ret (Some err)
            | OK contChal =>
                emit (SendOut (mkNotification c header contChal l)) ;;;
                ret None
            end
        end
      else ret None
  end.

(** The query built by [StartConnection] for the historical read. *)
Definition historyFilter (c : bisectionChallenge) (header : types.Header) : ethereum.FilterQuery :=
  {| ethereum.FromBlock := None;
     ethereum.ToBlock := Some (types.Number header);
     ethereum.Addresses := [address (base c)];
     ethereum.Topics := [[continuedChallengeID]] |}.

(** The same query after [filter.FromBlock = header.Number + 1] and
    [filter.ToBlock = nil]. *)
Definition liveFilter (c : bisectionChallenge) (header : types.Header) : ethereum.FilterQuery :=
  {| ethereum.FromBlock := Some (types.Number header + 1);
     ethereum.ToBlock := None;
     ethereum.Addresses := [address (base c)];
     ethereum.Topics := [[continuedChallengeID]] |}.

(** [for _, log := range logs { if err := c.processEvents(...); err != nil { return err } }] *)
Fixpoint processHistory (c : bisectionChallenge) (logs : list types.Log) : M (option error) :=
  match logs with
  | [] => ret None
  | l :: rest =>
      r <- processEvents c l ;;
      match r with
      | Some err => ret (Some err)
      | None => processHistory c rest
      end
  end.

(** [StartConnection] up to and including the [go] statement.  The
    result carries the receiver, whose binding [setupContracts] assigns. *)
Definition StartConnection (c : bisectionChallenge) : M (bisectionChallenge * option error) :=
  r0 <- baseStartConnection (base c) ;;
  match r0 with
  | Some err => ret (c, Some err)
  | None =>
      let (c1, r1) := setupContracts c in
      match r1 with
      | Some err => ret (c1, Some err)
      | None =>
          h <- HeaderByNumber (client (base c1)) ;;
          match h with
          | ERR err => ret (c1, Some err)
          | OK header =>
              ls <- FilterLogs (client (base c1)) (historyFilter c1 header) ;;
              match ls with
              | ERR err => ret (c1, Some err)
              | OK logs =>
                  r2 <- processHistory c1 logs ;;
                  match r2 with
                  | Some err => ret (c1, Some err)
                  | None =>
                      s <- SubscribeFilterLogs (client (base c1)) (liveFilter c1 header) ;;
                      match s with
                      | Some err => ret (c1, Some err)
                      | None => emit Spawn ;;; ret (c1, None)
                      end
                  end
              end
          end
      end
  end.

(** ** The background task

    One iteration of the [for { select { ... } }] loop takes the case the
    scheduler picked.  A schedule is the sequence of picked cases. *)

Inductive SelectCase : Type :=
| CtxDone
| LogReceived (l : types.Log)
| SubErr (err : error).

Inductive TaskState : Type :=
| Selecting
| Returned.

(** [case <-ctx.Done(): break] leaves the [select] statement only, so
    the enclosing [for] runs its next iteration. *)
Fixpoint liveLoop (c : bisectionChallenge) (sched : list SelectCase) : M TaskState :=
  match sched with
  | [] => ret Selecting
  | CtxDone :: rest => liveLoop c rest
  | LogReceived l :: rest =>
      r <- processEvents c l ;;
      match r with
      | Some err => emit (SendErr err) ;;; ret Returned
      | None => liveLoop c rest
      end
  | SubErr err :: rest => emit (SendErr err) ;;; ret Returned
  end.

(** [defer logSub.Unsubscribe()]: runs when the function returns or
    panics, not while it is blocked in [select]. *)
Definition deferUnsubscribe (body : M TaskState) : M TaskState :=
  match body with
  | (t, Done Selecting) => (t, Done Selecting)
  | (t, Done Returned) => (t ++ [Unsubscribe], Done Returned)
  | (t, Panicked p) => (t ++ [Unsubscribe], Panicked p)
  end.

Definition backgroundTask (c : bisectionChallenge) (sched : list SelectCase) : M TaskState :=
  deferUnsubscribe (liveLoop c sched).

(** [StartConnection] followed by the task it spawned, run on [sched]. *)
Definition session (c : bisectionChallenge) (sched : list SelectCase) : M (option error) :=
  r <- StartConnection c ;;
  match r with
  | (_, Some err) => ret (Some err)
  | (c1, None) => backgroundTask c1 sched ;;; ret None
  end.

(** Whether a live subscription is held at the end of a trace. *)
Fixpoint held (now : bool) (t : Trace) : bool :=
  match t with
  | [] => now
  | Subscribed :: t' => held true t'
  | Unsubscribe :: t' => held false t'
  | _ :: t' => held now t'
  end.

Definition is_spawn (e : Effect) : bool :=
  match e with Spawn => true | _ => false end.

(** The number of tasks a trace has started. *)
Definition spawned (t : Trace) : nat := length (filter is_spawn t).

(** The query of the last subscription request of a trace. *)
Fixpoint lastSubscribe (found : option ethereum.FilterQuery) (t : Trace)
    : option ethereum.FilterQuery :=
  match t with
  | [] => found
  | CallSubscribeFilterLogs q :: t' => lastSubscribe (Some q) t'
  | _ :: t' => lastSubscribe found t'
  end.

(** What [logChan] carries: the feed of the subscription that
    [StartConnection] requested from the client. *)
Definition channel (c : bisectionChallenge) : list types.Log :=
  match lastSubscribe None (trace_of (StartConnection c)) with
  | Some q => subscriptionFeed (client (base c)) q
  | None => []
  end.

(** [StartConnection] followed by the task it started, at the point
    where the task has taken the first [k] entries of the channel. *)
Definition synchronize (c : bisectionChallenge) (k : nat) : M (option error) :=
  session c (map LogReceived (firstn k (channel c))).

(** ** Submitting a move *)

Definition chooseSegment (c : bisectionChallenge) (ctx : Z)
    (segmentToChallenge : uint16) (segments : list common.Hash) : M (option error) :=
  tree <- lift (MerkleTree.NewMerkleTree hashPair sentinel segments) ;;
  let auth' := {| From := From (auth (base c)); Context := ctx |} in
  let index := bigNewInt (int64 (u16 segmentToChallenge)) in
  proof <- lift (MerkleTree.GetProofFlat sentinel tree (int (u16 segmentToChallenge))) ;;
  let root := MerkleTree.GetRoot sentinel tree in
  node <- lift (MerkleTree.GetNode sentinel tree (int (u16 segmentToChallenge))) ;;
  match BisectionChallenge c with
  | None => throw NilPointer
  | Some b =>
      let m := {| moveOpts := auth'; moveSegment := index; moveProof := proof;
                  moveRoot := root; moveLeaf := node |} in
      emit (CallChooseSegment m) ;;;
      match ChooseSegment b m with
      | ERR err => ret (Some err)
      | OK tx =>
          emit (CallWaitForReceipt tx) ;;;
          ret (waitForReceipt (base c) tx)
      end
  end.

(** ** Vocabulary of the properties *)

(** An entry is skipped silently when it yields neither a notification
    nor an error. *)
Definition skipped (c : bisectionChallenge) (l : types.Log) : Prop :=
  sent (trace_of (processEvents c l)) = [] /\
  result_of (processEvents c l) = Done None.

(** A connection whose client resolves every block hash. *)
Definition resolvingConnection (b : BisectionChallengeBinding) : bisectionChallenge :=
  {| base :=
       {| address := 0;
          client :=
            {| chainHead := {| types.Number := 0; types.Hash := 0 |};
               headAtQuery := 0;
               chainLogs := [];
               headerOf := fun h => OK {| types.Number := 0; types.Hash := h |};
               headFault := None; filterFault := None; subscribeFault := None |};
          auth := {| From := 0; Context := 0 |};
          NewBisectionChallenge := OK b;
          baseStartConnection := ret None;
          waitForReceipt := fun _ => None |};
     BisectionChallenge := Some b |}.

(** The move [chooseSegment] hands to the contract binding. *)
Definition moveFor (c : bisectionChallenge) (ctx : Z) (segmentToChallenge : uint16)
    (tree : MerkleTree.t) (proof : list common.Hash) (node : common.Hash) : Move :=
  {| moveOpts := {| From := From (auth (base c)); Context := ctx |};
     moveSegment := u16 segmentToChallenge;
     moveProof := proof;
     moveRoot := MerkleTree.GetRoot sentinel tree;
     moveLeaf := node |}.

(** The failures of the live phase: the header of a received entry does
    not resolve, its payload does not decode, or the subscription
    reports an error. *)
Inductive LiveFailure (c : bisectionChallenge) : SelectCase -> error -> Prop :=
| HeaderFailure (l : types.Log) (err : error) :
    headerOf (client (base c)) (types.BlockHash l) = ERR err ->
    LiveFailure c (LogReceived l) err
| DecodeFailure (l : types.Log) (header : types.Header)
      (b : BisectionChallengeBinding) (err : error) :
    headerOf (client (base c)) (types.BlockHash l) = OK header ->
    firstTopic l = Done continuedChallengeID ->
    BisectionChallenge c = Some b ->
    ParseContinued b l = ERR err ->
    LiveFailure c (LogReceived l) err
| SubscriptionFailure (err : error) :
    LiveFailure c (SubErr err) err.

(** The client calls made by the loop iteration that takes a case. *)
Definition lookups (ev : SelectCase) : Trace :=
  match ev with
  | LogReceived l => [CallHeaderByHash (types.BlockHash l)]
  | _ => []
  end.

(** The receiver once [setupContracts] has assigned the binding. *)
Definition connected (c : bisectionChallenge) (b : BisectionChallengeBinding)
    : bisectionChallenge :=
  {| base := base c; BisectionChallenge := Some b |}.

(** The criteria of both queries: the contract address and the
    "Continued" digest as first topic. *)
Definition matches (c : bisectionChallenge) (l : types.Log) : bool :=
  address_match [address (base c)] (types.Address l)
  && topics_match [[continuedChallengeID]] (types.Topics l).

(** The entries the historical query returns: matching, up to height [H]. *)
Definition historical (c : bisectionChallenge) (H : Z) : list types.Log :=
  filter (fun l => matches c l && (types.BlockNumber l <=? H))
         (chainLogs (client (base c))).

(** The entries the live subscription delivers: matching, from [H + 1] on. *)
Definition live (c : bisectionChallenge) (H : Z) : list types.Log :=
  filter (fun l => matches c l && (H + 1 <=? types.BlockNumber l))
         (chainLogs (client (base c))).

(** Effects that neither touch [errChan] nor the subscription nor start
    a task. *)
Definition quiet (e : Effect) : bool :=
  match e with
  | SendErr _ | Subscribed | Unsubscribe | Spawn => false
  | _ => true
  end.

(** The failures of start-up and of the historical phase, each with the
    steps before it having succeeded: connecting the contract, reading
    the head, querying the historical entries, processing one of them,
    and opening the live subscription. *)
Inductive StartupFailure (c : bisectionChallenge) : error -> Prop :=
| ConnectFailure (err : error) :
    NewBisectionChallenge (base c) = ERR err ->
    StartupFailure c (Wrap err "Failed to connect to ChallengeManager")
| HeadFailure (b : BisectionChallengeBinding) (err : error) :
    NewBisectionChallenge (base c) = OK b ->
    headFault (client (base c)) = Some err ->
    StartupFailure c err
| QueryFailure (b : BisectionChallengeBinding) (err : error) :
    NewBisectionChallenge (base c) = OK b ->
    headFault (client (base c)) = None ->
    filterFault (client (base c)) = Some err ->
    StartupFailure c err
| HistoryFailure (b : BisectionChallengeBinding) (pre post : list types.Log)
      (l : types.Log) (err : error) :
    NewBisectionChallenge (base c) = OK b ->
    headFault (client (base c)) = None ->
    filterFault (client (base c)) = None ->
    historical c (types.Number (chainHead (client (base c)))) = (pre ++ l :: post)%list ->
    (forall l', In l' pre -> result_of (processEvents (connected c b) l') = Done None) ->
    result_of (processEvents (connected c b) l) = Done (Some err) ->
    StartupFailure c err
| SubscribeFailure (b : BisectionChallengeBinding) (err : error) :
    NewBisectionChallenge (base c) = OK b ->
    headFault (client (base c)) = None ->
    filterFault (client (base c)) = None ->
    result_of (processHistory (connected c b)
                 (historical c (types.Number (chainHead (client (base c))))))
    = Done None ->
    subscribeFault (client (base c)) = Some err ->
    StartupFailure c err.

(** The notification due for a matching entry: its header resolved and
    its payload decoded. *)
Definition notify (c : bisectionChallenge) (b : BisectionChallengeBinding)
    (l : types.Log) : option arbbridge.Notification :=
  match headerOf (client (base c)) (types.BlockHash l), ParseContinued b l with
  | OK header, OK contChal => Some (mkNotification c header contChal l)
  | _, _ => None
  end.

(** An entry of the log is well formed when its header resolves to the
    block the entry names and its payload decodes. *)
Definition resolves (c : bisectionChallenge) (b : BisectionChallengeBinding)
    (l : types.Log) : Prop :=
  exists n, notify c b l = Some n /\ arbbridge.BlockHeight n = types.BlockNumber l.

(** ** Construction *)

(** [newBisectionChallenge].  [newChallenge] is not part of this file of
    the repository and is a parameter; a [nil] receiver is [None]. *)
Definition newBisectionChallenge
    (newChallenge : ethcommon.Address -> Client -> TransactOpts -> res challenge)
    (addr : ethcommon.Address) (cl : Client) (opts : TransactOpts)
    : option bisectionChallenge * option error :=
  match newChallenge addr cl opts with
  | ERR err => (None, Some err)
  | OK ch =>
      let vm := {| base := ch; BisectionChallenge := None |} in
      let (vm', err) := setupContracts vm in
      (Some vm', err)
  end.

(** The receiver with another value in its [BisectionChallenge] field. *)
Definition withBinding (c : bisectionChallenge) (x : option BisectionChallengeBinding)
    : bisectionChallenge :=
  {| base := base c; BisectionChallenge := x |}.

(** Header lookups and notifications. *)
Definition lookupOrNotify (e : Effect) : bool :=
  match e with
  | CallHeaderByHash _ | SendOut _ => true
  | _ => false
  end.

(** The entries a schedule delivers on [logChan]. *)
Fixpoint received (sched : list SelectCase) : list types.Log :=
  match sched with
  | [] => []
  | LogReceived l :: rest => l :: received rest
  | _ :: rest => received rest
  end.

(** * Properties *)

(** ** Traces *)

Lemma sent_app (t1 t2 : Trace) : sent (t1 ++ t2) = (sent t1 ++ sent t2)%list.
Proof.
  induction t1 as [|e t1 IH]; simpl; [reflexivity|].
  destruct e; simpl; rewrite IH; reflexivity.
Qed.

Lemma errors_app (t1 t2 : Trace) : errors (t1 ++ t2) = (errors t1 ++ errors t2)%list.
Proof.
  induction t1 as [|e t1 IH]; simpl; [reflexivity|].
  destruct e; simpl; rewrite IH; reflexivity.
Qed.

Lemma held_app (now : bool) (t1 t2 : Trace) :
  held now (t1 ++ t2) = held (held now t1) t2.
Proof.
  revert now; induction t1 as [|e t1 IH]; intros now; simpl; [reflexivity|].
  destruct e; apply IH.
Qed.

Lemma bind_done {A B} (t : Trace) (a : A) (k : A -> M B) :
  bind (t, Done a) k = ((t ++ fst (k a))%list, snd (k a)).
Proof. unfold bind. destruct (k a); reflexivity. Qed.

Lemma bind_lift_done {A B} (a : A) (k : A -> M B) : bind (lift (Done a)) k = k a.
Proof. unfold lift, bind. destruct (k a); reflexivity. Qed.

(** ** [processEvents] by cases *)

Lemma processEvents_eq (c : bisectionChallenge) (l : types.Log) :
  processEvents c l =
  match headerOf (client (base c)) (types.BlockHash l) with
  | ERR err => ([CallHeaderByHash (types.BlockHash l)], Done (Some err))
  | OK header =>
      match types.Topics l with
      | [] => ([CallHeaderByHash (types.BlockHash l)], Panicked IndexOutOfRange)
      | t0 :: _ =>
          if t0 =? continuedChallengeID then
            match BisectionChallenge c with
            | None => ([CallHeaderByHash (types.BlockHash l)], Panicked NilPointer)
            | Some b =>
                match ParseContinued b l with
                | ERR err => ([CallHeaderByHash (types.BlockHash l)], Done (Some err))
                | OK contChal =>
                    ([CallHeaderByHash (types.BlockHash l);
                      SendOut (mkNotification c header contChal l)], Done None)
                end
            end
          else ([CallHeaderByHash (types.BlockHash l)], Done None)
      end
  end.
Proof.
  unfold processEvents, HeaderByHash, firstTopic, lift, throw, emit, ret, bind.
  destruct (headerOf _ _) as [header|err]; [|reflexivity].
  destruct (types.Topics l) as [|t0 ts]; [reflexivity|].
  destruct (t0 =? continuedChallengeID); [|reflexivity].
  destruct (BisectionChallenge c) as [b|]; [|reflexivity].
  destruct (ParseContinued b l); reflexivity.
Qed.

(** A notification is only ever sent for an entry whose header resolved,
    whose first topic is the "Continued" digest and whose payload decoded. *)
Lemma processEvents_sent_inv (c : bisectionChallenge) (l : types.Log)
    (n : arbbridge.Notification) :
  In n (sent (trace_of (processEvents c l))) ->
  exists header b contChal,
    headerOf (client (base c)) (types.BlockHash l) = OK header /\
    firstTopic l = Done continuedChallengeID /\
    BisectionChallenge c = Some b /\
    ParseContinued b l = OK contChal /\
    n = mkNotification c header contChal l.
Proof.
  tidy.
  rewrite processEvents_eq. unfold firstTopic.
  destruct (headerOf _ _) as [header|err]; [|simpl; tauto].
  destruct (types.Topics l) as [|t0 ts]; [simpl; tauto|].
  destruct (Z.eqb_spec t0 continuedChallengeID) as [->|Hne]; [|simpl; tauto].
  destruct (BisectionChallenge c) as [b|]; [|simpl; tauto].
  destruct (ParseContinued b l) as [contChal|err] eqn:Hp; [|simpl; tauto].
  simpl. intros [<-|[]]. exists header, b, contChal. auto.
Qed.

(** ** Topic dispatch and the notification *)

(** C5 (as amended).  A notification is sent only for an entry whose
    first topic equals the "Continued" digest.  An entry whose first
    topic is any other value yields no notification and makes no call
    but the header lookup; it yields no error either when its block
    header resolves, and when the lookup fails the error of the lookup
    is returned, the lookup coming before the topic check.  An entry
    with no topic yields no notification. *)
Theorem processEvents_topic_dispatch (c : bisectionChallenge) (l : types.Log) :
  (forall n, In n (sent (trace_of (processEvents c l))) ->
             firstTopic l = Done continuedChallengeID) /\
  (forall t0,
     firstTopic l = Done t0 -> t0 <> continuedChallengeID ->
     sent (trace_of (processEvents c l)) = [] /\
     trace_of (processEvents c l) = [CallHeaderByHash (types.BlockHash l)] /\
     (forall header,
        headerOf (client (base c)) (types.BlockHash l) = OK header ->
        skipped c l) /\
     (forall err,
        headerOf (client (base c)) (types.BlockHash l) = ERR err ->
        result_of (processEvents c l) = Done (Some err))) /\
  (types.Topics l = [] -> sent (trace_of (processEvents c l)) = []).
Proof.
  tidy.
  split; [|split].
  - intros n Hn.
    destruct (processEvents_sent_inv c l n Hn) as (h & b & ev & _ & Ht & _).
    exact Ht.
  - intros t0 Htopic Hne. unfold skipped. rewrite processEvents_eq.
    unfold firstTopic in Htopic.
    destruct (types.Topics l) as [|t ts]; [discriminate|].
    injection Htopic as ->.
    destruct (Z.eqb_spec t0 continuedChallengeID) as [Heq|_]; [contradiction|].
    destruct (headerOf _ _) as [header|err]; simpl.
    + repeat split; auto. discriminate.
    + repeat split; auto; try discriminate. intros e [= ->]. reflexivity.
  - intros Hnil. rewrite processEvents_eq, Hnil.
    destruct (headerOf _ _); reflexivity.
Qed.

(** C6.  For a matching log entry whose header resolves and whose
    payload decodes, [processEvents] first looks the header up by the
    entry's block hash and then sends exactly one notification, carrying
    the hash and the number of that header, the address of the challenge
    contract, the decoded segment index and deadline ticks, and the
    transaction hash of the entry. *)
Theorem processEvents_notification
    (c : bisectionChallenge) (l : types.Log) (header : types.Header)
    (b : BisectionChallengeBinding)
    (contChal : executionchallenge.BisectionChallengeContinued)
    (Htopic : firstTopic l = Done continuedChallengeID)
    (Hheader : headerOf (client (base c)) (types.BlockHash l) = OK header)
    (Hbinding : BisectionChallenge c = Some b)
    (Hparse : ParseContinued b l = OK contChal) :
  processEvents c l =
  ([CallHeaderByHash (types.BlockHash l);
    SendOut
      {| arbbridge.BlockHeader := types.Hash header;
         arbbridge.BlockHeight := types.Number header;
         arbbridge.VMID := address (base c);
         arbbridge.Event :=
           {| arbbridge.SegmentIndex := executionchallenge.SegmentIndex contChal;
              arbbridge.Deadline :=
                {| common.Val := executionchallenge.DeadlineTicks contChal |} |};
         arbbridge.TxHash := types.TxHash l |}],
   Done None).
Proof.
  rewrite processEvents_eq, Hheader. unfold firstTopic in Htopic.
  destruct (types.Topics l) as [|t ts]; [discriminate|].
  injection Htopic as ->. rewrite Z.eqb_refl, Hbinding, Hparse.
  reflexivity.
Qed.

(** ** Totality of [processEvents] *)

(** C9.  [processEvents] reads [log.Topics[0]] unguarded: on an entry
    with no topics whose header resolves it panics with an index error,
    and for a given entry it has a defined result on every connected
    receiver exactly when the entry has at least one topic. *)
Theorem processEvents_total_iff_topic (l : types.Log) :
  (forall c header,
     types.Topics l = [] ->
     headerOf (client (base c)) (types.BlockHash l) = OK header ->
     processEvents c l =
     ([CallHeaderByHash (types.BlockHash l)], Panicked IndexOutOfRange)) /\
  ((forall c, BisectionChallenge c <> None ->
              exists r, result_of (processEvents c l) = Done r)
   <-> types.Topics l <> []).
Proof.
  split; [|split].
  - intros c header Hnil Hh. rewrite processEvents_eq, Hh, Hnil. reflexivity.
  - intros Htotal Hnil.
    set (b := {| ParseContinued := fun _ => ERR (ErrCode 0);
                 ChooseSegment := fun _ => ERR (ErrCode 0) |}).
    destruct (Htotal (resolvingConnection b)) as [r Hr]; [discriminate|].
    rewrite processEvents_eq in Hr. simpl in Hr. rewrite Hnil in Hr.
    discriminate.
  - intros Hne c Hc. rewrite processEvents_eq.
    destruct (headerOf _ _) as [header|err]; [|simpl; eauto].
    destruct (types.Topics l) as [|t0 ts]; [contradiction|].
    destruct (t0 =? continuedChallengeID); [|simpl; eauto].
    destruct (BisectionChallenge c) as [b|]; [|contradiction].
    destruct (ParseContinued b l); simpl; eauto.
Qed.

(** ** Machine integers *)

Lemma u16_bounds (i : uint16) : 0 <= u16 i < 65536.
Proof.
  destruct i as [z Hz]; simpl.
  apply andb_true_iff in Hz. destruct Hz as [H0 H1].
  apply Z.leb_le in H0. apply Z.ltb_lt in H1. lia.
Qed.

Lemma int64_small (x : Z) : - 2 ^ 63 <= x < 2 ^ 63 -> int64 x = x.
Proof.
  intros Hx. unfold int64. rewrite Z.mod_small; lia.
Qed.

Lemma int64_u16 (i : uint16) : int64 (u16 i) = u16 i.
Proof.
  apply int64_small. pose proof (u16_bounds i). lia.
Qed.

(** ** The commitment tree *)

Lemma buildLayers_hd (fuel : nat) (layer : list common.Hash) :
  hd [] (MerkleTree.buildLayers hashPair fuel layer) = layer.
Proof.
  destruct fuel as [|fuel]; simpl; [reflexivity|].
  destruct layer as [|a [|b rest]]; reflexivity.
Qed.

Lemma in_range_test (n : nat) (z : Z) :
  (0 <=? z) && (z <? Z.of_nat n) = true <-> 0 <= z < Z.of_nat n.
Proof.
  tidy.
  rewrite andb_true_iff, Z.leb_le, Z.ltb_lt. tauto.
Qed.

Lemma out_of_range_test (n : nat) (z : Z) :
  Z.of_nat n <= z -> (0 <=? z) && (z <? Z.of_nat n) = false.
Proof.
  intros Hz. apply andb_false_iff. right. apply Z.ltb_ge. exact Hz.
Qed.

(** In range, the leaf value is the segment at that position. *)
Lemma GetNode_in_range (segments : list common.Hash) (tree : MerkleTree.t) (index : Z) :
  MerkleTree.NewMerkleTree hashPair sentinel segments = Done tree ->
  0 <= index < Z.of_nat (length segments) ->
  MerkleTree.GetNode sentinel tree index
  = Done (nth (Z.to_nat index) segments sentinel).
Proof.
  intros Hbuild Hrange. unfold MerkleTree.NewMerkleTree in Hbuild.
  destruct segments as [|s segments]; [discriminate|].
  injection Hbuild as <-. unfold MerkleTree.GetNode.
  change (MerkleTree.size _) with (length (s :: segments)).
  rewrite (proj2 (in_range_test _ _) Hrange).
  change (MerkleTree.layers _)
    with (MerkleTree.buildLayers hashPair
            (length (MerkleTree.pad sentinel (s :: segments)))
            (MerkleTree.pad sentinel (s :: segments))).
  rewrite buildLayers_hd. unfold MerkleTree.pad.
  rewrite app_nth1 by lia. reflexivity.
Qed.

(** ** [chooseSegment] *)

(** C7.  For an index within the segment sequence, [chooseSegment] on a
    connected receiver builds the tree over the segments and submits one
    move made of the index, the flat proof of that leaf, the root and
    the leaf value (the segment at the index); if the submission is
    refused its error is returned, and otherwise the call waits for the
    receipt and returns the outcome of the wait. *)
Theorem chooseSegment_submits
    (c : bisectionChallenge) (b : BisectionChallengeBinding) (ctx : Z)
    (segmentToChallenge : uint16) (segments : list common.Hash)
    (Hbinding : BisectionChallenge c = Some b)
    (Hrange : u16 segmentToChallenge < Z.of_nat (length segments)) :
  exists tree proof node,
    MerkleTree.NewMerkleTree hashPair sentinel segments = Done tree /\
    MerkleTree.GetProofFlat sentinel tree (u16 segmentToChallenge) = Done proof /\
    MerkleTree.GetNode sentinel tree (u16 segmentToChallenge) = Done node /\
    node = nth (Z.to_nat (u16 segmentToChallenge)) segments sentinel /\
    chooseSegment c ctx segmentToChallenge segments =
    match ChooseSegment b (moveFor c ctx segmentToChallenge tree proof node) with
    | ERR err =>
        ([CallChooseSegment (moveFor c ctx segmentToChallenge tree proof node)],
         Done (Some err))
    | OK tx =>
        ([CallChooseSegment (moveFor c ctx segmentToChallenge tree proof node);
          CallWaitForReceipt tx],
         Done (waitForReceipt (base c) tx))
    end.
Proof.
  pose proof (u16_bounds segmentToChallenge) as Hb.
  assert (Hin : 0 <= u16 segmentToChallenge < Z.of_nat (length segments)) by lia.
  destruct (MerkleTree.NewMerkleTree hashPair sentinel segments) as [tree|p] eqn:Hbuild.
  2:{ destruct segments; [simpl in Hin; lia | discriminate]. }
  assert (Hsize : MerkleTree.size tree = length segments).
  { unfold MerkleTree.NewMerkleTree in Hbuild.
    destruct segments; [discriminate|]. injection Hbuild as <-. reflexivity. }
  pose proof (GetNode_in_range segments tree _ Hbuild Hin) as Hnode.
  exists tree, (MerkleTree.siblings sentinel (MerkleTree.layers tree)
                  (Z.to_nat (u16 segmentToChallenge))),
         (nth (Z.to_nat (u16 segmentToChallenge)) segments sentinel).
  assert (Hproof : MerkleTree.GetProofFlat sentinel tree (u16 segmentToChallenge)
                   = Done (MerkleTree.siblings sentinel (MerkleTree.layers tree)
                             (Z.to_nat (u16 segmentToChallenge)))).
  { unfold MerkleTree.GetProofFlat. rewrite Hsize.
    rewrite (proj2 (in_range_test _ _) Hin). reflexivity. }
  repeat split; auto.
  unfold chooseSegment, int. rewrite int64_u16.
  rewrite Hbuild, bind_lift_done, Hproof, bind_lift_done, Hnode, bind_lift_done.
  rewrite Hbinding. unfold moveFor, bigNewInt, emit, ret, bind.
  destruct (ChooseSegment b _); reflexivity.
Qed.

(** C3 (as amended).  With an index at or past the end of the segment
    sequence, [chooseSegment] stops before anything reaches the
    transaction sink: on a non-empty sequence the proof lookup fails with
    [IndexOutOfRange], and on the empty sequence the tree build has
    already failed with [InvalidInput]. *)
Theorem chooseSegment_out_of_range
    (c : bisectionChallenge) (ctx : Z)
    (segmentToChallenge : uint16) (segments : list common.Hash)
    (Hrange : Z.of_nat (length segments) <= u16 segmentToChallenge) :
  chooseSegment c ctx segmentToChallenge segments =
  ([], Panicked (match segments with
                 | [] => InvalidInput
                 | _ => IndexOutOfRange
                 end)) /\
  submitted (trace_of (chooseSegment c ctx segmentToChallenge segments)) = [].
Proof.
  assert (H : chooseSegment c ctx segmentToChallenge segments =
              ([], Panicked (match segments with
                             | [] => InvalidInput
                             | _ => IndexOutOfRange
                             end))).
  { unfold chooseSegment, int. rewrite int64_u16.
    destruct segments as [|s segments]; [reflexivity|].
    unfold MerkleTree.NewMerkleTree. rewrite bind_lift_done.
    unfold MerkleTree.GetProofFlat.
    change (MerkleTree.size _) with (length (s :: segments)).
    rewrite (out_of_range_test _ _ Hrange). reflexivity. }
  rewrite H. split; reflexivity.
Qed.

(** C10.  The index parameter of [chooseSegment] is a [uint16]: its
    value lies in [0, 65535], converting it through [int64] to a big
    integer returns the same value, and every move the call submits
    carries exactly that value as its segment index. *)
Theorem chooseSegment_index_exact (segmentToChallenge : uint16) :
  0 <= u16 segmentToChallenge <= 65535 /\
  bigNewInt (int64 (u16 segmentToChallenge)) = u16 segmentToChallenge /\
  forall c ctx segments m,
    In m (submitted (trace_of (chooseSegment c ctx segmentToChallenge segments))) ->
    moveSegment m = u16 segmentToChallenge /\ 0 <= moveSegment m <= 65535.
Proof.
  tidy.
  pose proof (u16_bounds segmentToChallenge) as Hb.
  split; [lia|]. split; [unfold bigNewInt; apply int64_u16|].
  intros c ctx segments m. unfold chooseSegment, int. rewrite int64_u16.
  unfold bigNewInt, lift, throw, emit, ret, bind.
  destruct (MerkleTree.NewMerkleTree hashPair sentinel segments) as [tree|p];
    [|simpl; tauto].
  destruct (MerkleTree.GetProofFlat sentinel tree _) as [proof|p]; [|simpl; tauto].
  destruct (MerkleTree.GetNode sentinel tree _) as [node|p]; [|simpl; tauto].
  destruct (BisectionChallenge c) as [b|]; [|simpl; tauto].
  destruct (ChooseSegment b _); simpl; intros [<-|[]]; simpl; lia.
Qed.

(** ** The background task *)

Lemma processEvents_no_errors (c : bisectionChallenge) (l : types.Log) :
  errors (trace_of (processEvents c l)) = [].
Proof.
  rewrite processEvents_eq.
  destruct (headerOf _ _); [|reflexivity].
  destruct (types.Topics l) as [|t0 ts]; [reflexivity|].
  destruct (t0 =? continuedChallengeID); [|reflexivity].
  destruct (BisectionChallenge c) as [b|]; [|reflexivity].
  destruct (ParseContinued b l); reflexivity.
Qed.

Lemma liveLoop_log (c : bisectionChallenge) (l : types.Log) (rest : list SelectCase) :
  liveLoop c (LogReceived l :: rest) =
  match processEvents c l with
  | (t, Done None) => ((t ++ fst (liveLoop c rest))%list, snd (liveLoop c rest))
  | (t, Done (Some err)) => ((t ++ [SendErr err])%list, Done Returned)
  | (t, Panicked p) => (t, Panicked p)
  end.
Proof.
  cbn [liveLoop]. destruct (processEvents c l) as [t [[err|]|p]].
  - reflexivity.
  - unfold bind. destruct (liveLoop c rest); reflexivity.
  - reflexivity.
Qed.

(** While the loop is still selecting, what it has done so far is a
    prefix of what it does on a longer schedule. *)
Lemma liveLoop_app (c : bisectionChallenge) (pre rest : list SelectCase) (tr : Trace) :
  liveLoop c pre = (tr, Done Selecting) ->
  liveLoop c (pre ++ rest) =
  ((tr ++ fst (liveLoop c rest))%list, snd (liveLoop c rest)).
Proof.
  revert tr. induction pre as [|ev pre IH]; intros tr Hpre.
  - injection Hpre as <-. simpl. destruct (liveLoop c rest); reflexivity.
  - destruct ev as [|l|err].
    + simpl in *. apply IH. exact Hpre.
    + rewrite <- app_comm_cons, liveLoop_log. rewrite liveLoop_log in Hpre.
      destruct (processEvents c l) as [t [[err|]|p]]; try discriminate.
      destruct (liveLoop c pre) as [tr' r'] eqn:Hloop. simpl in Hpre.
      injection Hpre as <- ->. rewrite (IH tr' eq_refl). simpl.
      rewrite app_assoc. reflexivity.
    + discriminate.
Qed.

Lemma liveLoop_selecting_no_errors (c : bisectionChallenge) (pre : list SelectCase)
    (tr : Trace) :
  liveLoop c pre = (tr, Done Selecting) -> errors tr = [].
Proof.
  revert tr. induction pre as [|ev pre IH]; intros tr Hpre.
  - injection Hpre as <-. reflexivity.
  - destruct ev as [|l|err].
    + apply IH. exact Hpre.
    + rewrite liveLoop_log in Hpre.
      pose proof (processEvents_no_errors c l) as Hne.
      destruct (processEvents c l) as [t [[err|]|p]]; try discriminate.
      destruct (liveLoop c pre) as [tr' r'] eqn:Hloop. simpl in Hpre.
      injection Hpre as <- ->. rewrite errors_app. simpl in Hne.
      rewrite Hne, (IH tr' eq_refl). reflexivity.
    + discriminate.
Qed.

(** Every error the loop reports for a received entry is one of the
    failures of the live phase. *)
Lemma LiveFailure_complete (c : bisectionChallenge) (l : types.Log) (err : error) :
  result_of (processEvents c l) = Done (Some err) ->
  LiveFailure c (LogReceived l) err.
Proof.
  rewrite processEvents_eq.
  destruct (headerOf _ _) as [header|e] eqn:Hh.
  - destruct (types.Topics l) as [|t0 ts] eqn:Ht; [discriminate|].
    destruct (Z.eqb_spec t0 continuedChallengeID) as [Heq|Hne]; [|discriminate].
    destruct (BisectionChallenge c) as [b|] eqn:Hb; [|discriminate].
    destruct (ParseContinued b l) as [contChal|e] eqn:Hp; [discriminate|].
    intros [= ->]. apply (DecodeFailure c l header b err); auto.
    unfold firstTopic. rewrite Ht, Heq. reflexivity.
  - intros [= ->]. apply HeaderFailure. exact Hh.
Qed.

(** C4.  When the loop, still selecting after [pre], takes a case that
    fails, the task sends that error on [errChan], unsubscribes and
    returns, whatever the schedule holds afterwards.  The error is the
    only one ever sent, the failing iteration sends no notification, and
    the notifications sent are those sent before the failure. *)
Theorem backgroundTask_fails_fast
    (c : bisectionChallenge) (pre rest : list SelectCase) (ev : SelectCase)
    (err : error) (tr : Trace)
    (Hpre : liveLoop c pre = (tr, Done Selecting))
    (Hfail : LiveFailure c ev err) :
  backgroundTask c (pre ++ ev :: rest)
  = ((tr ++ lookups ev ++ [SendErr err; Unsubscribe])%list, Done Returned) /\
  errors (trace_of (backgroundTask c (pre ++ ev :: rest))) = [err] /\
  sent (trace_of (backgroundTask c (pre ++ ev :: rest))) = sent tr /\
  held true (trace_of (backgroundTask c (pre ++ ev :: rest))) = false.
Proof.
  assert (Hstep : liveLoop c (ev :: rest)
                  = ((lookups ev ++ [SendErr err])%list, Done Returned)).
  { destruct Hfail as [l e Hh | l header b e Hh Ht Hb Hp | e].
    - rewrite liveLoop_log, processEvents_eq, Hh. reflexivity.
    - rewrite liveLoop_log, processEvents_eq, Hh. unfold firstTopic in Ht.
      destruct (types.Topics l) as [|t ts]; [discriminate|].
      injection Ht as ->. rewrite Z.eqb_refl, Hb, Hp. reflexivity.
    - reflexivity. }
  assert (Hrun : backgroundTask c (pre ++ ev :: rest)
                 = ((tr ++ lookups ev ++ [SendErr err; Unsubscribe])%list,
                    Done Returned)).
  { unfold backgroundTask. rewrite (liveLoop_app c pre (ev :: rest) tr Hpre), Hstep.
    simpl. rewrite <- !app_assoc. reflexivity. }
  rewrite Hrun. unfold trace_of, fst.
  pose proof (liveLoop_selecting_no_errors c pre tr Hpre) as Hne.
  split; [reflexivity|]. split; [|split].
  - rewrite errors_app, Hne. destruct ev; reflexivity.
  - rewrite sent_app. destruct ev; simpl; rewrite app_nil_r; reflexivity.
  - rewrite !held_app. destruct ev; reflexivity.
Qed.

(** Taking the [ctx.Done()] case changes nothing: the loop goes on with
    the rest of the schedule. *)
Lemma liveLoop_ctx_done (c : bisectionChallenge) (sched : list SelectCase) :
  liveLoop c (CtxDone :: sched) = liveLoop c sched.
Proof. reflexivity. Qed.

(** After cancellation alone the task is still selecting and has not
    unsubscribed. *)
Lemma backgroundTask_cancel_only (c : bisectionChallenge) (n : nat) :
  backgroundTask c (repeat CtxDone n) = ([], Done Selecting).
Proof.
  unfold backgroundTask. induction n as [|n IH]; [reflexivity|].
  simpl repeat. rewrite liveLoop_ctx_done. exact IH.
Qed.

(** ** Start-up and the historical phase *)

Lemma FilterLogs_history (c : bisectionChallenge) (b : BisectionChallengeBinding) :
  filterFault (client (base c)) = None ->
  FilterLogs (client (base c))
             (historyFilter (connected c b) (chainHead (client (base c))))
  = ([CallFilterLogs (historyFilter (connected c b) (chainHead (client (base c))))],
     Done (OK (historical c (types.Number (chainHead (client (base c))))))).
Proof.
  intros Hf. unfold FilterLogs. rewrite Hf. unfold emit, ret, bind. simpl.
  do 3 f_equal. unfold historical. apply filter_ext. intros l.
  unfold criteria_match, from_ok, to_ok, matches. simpl.
  rewrite andb_true_r. reflexivity.
Qed.

Lemma subscriptionFeed_live (c : bisectionChallenge) (b : BisectionChallengeBinding) :
  subscriptionFeed (client (base c))
                   (liveFilter (connected c b) (chainHead (client (base c))))
  = live c (types.Number (chainHead (client (base c)))).
Proof.
  unfold subscriptionFeed, live. apply filter_ext. intros l.
  unfold up_to. cbn [liveFilter ethereum.ToBlock]. rewrite andb_true_r.
  reflexivity.
Qed.

Lemma matches_firstTopic (c : bisectionChallenge) (l : types.Log) :
  matches c l = true -> firstTopic l = Done continuedChallengeID.
Proof.
  unfold matches, firstTopic. intros Hm.
  apply andb_true_iff in Hm. destruct Hm as [_ Ht].
  destruct (types.Topics l) as [|t ts]; [discriminate|].
  simpl in Ht. rewrite !andb_true_r, orb_false_r in Ht.
  apply Z.eqb_eq in Ht. congruence.
Qed.

Lemma quiet_errors (t : Trace) : forallb quiet t = true -> errors t = [].
Proof.
  induction t as [|e t IH]; [reflexivity|]. simpl. intros H.
  apply andb_true_iff in H. destruct H as [He Ht].
  destruct e; try discriminate; simpl; auto.
Qed.

Lemma quiet_no_spawn (t : Trace) : forallb quiet t = true -> existsb is_spawn t = false.
Proof.
  induction t as [|e t IH]; [reflexivity|]. simpl. intros H.
  apply andb_true_iff in H. destruct H as [He Ht].
  destruct e; try discriminate; simpl; auto.
Qed.

Lemma quiet_held (now : bool) (t : Trace) : forallb quiet t = true -> held now t = now.
Proof.
  induction t as [|e t IH]; [reflexivity|]. simpl. intros H.
  apply andb_true_iff in H. destruct H as [He Ht].
  destruct e; try discriminate; simpl; auto.
Qed.

Lemma processEvents_quiet (c : bisectionChallenge) (l : types.Log) :
  forallb quiet (trace_of (processEvents c l)) = true.
Proof.
  rewrite processEvents_eq.
  destruct (headerOf _ _); [|reflexivity].
  destruct (types.Topics l) as [|t0 ts]; [reflexivity|].
  destruct (t0 =? continuedChallengeID); [|reflexivity].
  destruct (BisectionChallenge c) as [b|]; [|reflexivity].
  destruct (ParseContinued b l); reflexivity.
Qed.

Lemma processHistory_cons (c : bisectionChallenge) (l : types.Log) (rest : list types.Log) :
  processHistory c (l :: rest) =
  match processEvents c l with
  | (t, Done None) => ((t ++ fst (processHistory c rest))%list, snd (processHistory c rest))
  | (t, Done (Some err)) => (t, Done (Some err))
  | (t, Panicked p) => (t, Panicked p)
  end.
Proof.
  cbn [processHistory]. destruct (processEvents c l) as [t [[err|]|p]].
  - unfold bind, ret. rewrite app_nil_r. reflexivity.
  - unfold bind. destruct (processHistory c rest); reflexivity.
  - reflexivity.
Qed.

Lemma processHistory_quiet (c : bisectionChallenge) (logs : list types.Log) :
  forallb quiet (trace_of (processHistory c logs)) = true.
Proof.
  induction logs as [|l logs IH]; [reflexivity|].
  rewrite processHistory_cons. pose proof (processEvents_quiet c l) as Hq.
  destruct (processEvents c l) as [t [[err|]|p]]; try exact Hq.
  unfold trace_of in *. simpl in *. rewrite forallb_app, Hq. exact IH.
Qed.

(** The historical loop stops at the first entry whose processing
    reports an error and returns that error. *)
Lemma processHistory_first_error (c : bisectionChallenge)
    (pre post : list types.Log) (l : types.Log) (err : error) :
  (forall l', In l' pre -> result_of (processEvents c l') = Done None) ->
  result_of (processEvents c l) = Done (Some err) ->
  result_of (processHistory c (pre ++ l :: post)) = Done (Some err).
Proof.
  intros Hpre Hl. induction pre as [|l0 pre IH].
  - simpl app. rewrite processHistory_cons.
    destruct (processEvents c l) as [t [[e|]|p]]; try discriminate.
    exact Hl.
  - rewrite <- app_comm_cons, processHistory_cons.
    pose proof (Hpre l0 (or_introl eq_refl)) as H0.
    destruct (processEvents c l0) as [t [[e|]|p]]; try discriminate.
    unfold result_of in *. simpl. apply IH.
    intros l' Hin. apply Hpre. right. exact Hin.
Qed.

(** [StartConnection] by cases, once the embedded challenge has started. *)
Lemma StartConnection_eq (c : bisectionChallenge) (bt : Trace) :
  baseStartConnection (base c) = (bt, Done None) ->
  let cl := client (base c) in
  let head := chainHead cl in
  StartConnection c =
  match NewBisectionChallenge (base c) with
  | ERR err => (bt, Done (c, Some (Wrap err "Failed to connect to ChallengeManager")))
  | OK b =>
      let c1 := connected c b in
      match headFault cl with
      | Some err => ((bt ++ [CallHeaderByNumber])%list, Done (c1, Some err))
      | None =>
          match filterFault cl with
          | Some err =>
              ((bt ++ [CallHeaderByNumber; CallFilterLogs (historyFilter c1 head)])%list,
               Done (c1, Some err))
          | None =>
              let start :=
                (bt ++ [CallHeaderByNumber; CallFilterLogs (historyFilter c1 head)]
                    ++ trace_of (processHistory c1 (historical c (types.Number head))))%list in
              match result_of (processHistory c1 (historical c (types.Number head))) with
              | Panicked p => (start, Panicked p)
              | Done (Some err) => (start, Done (c1, Some err))
              | Done None =>
                  match subscribeFault cl with
                  | Some err =>
                      ((start ++ [CallSubscribeFilterLogs (liveFilter c1 head)])%list,
                       Done (c1, Some err))
                  | None =>
                      ((start ++ [CallSubscribeFilterLogs (liveFilter c1 head);
                                  Subscribed; Spawn])%list,
                       Done (c1, None))
                  end
              end
          end
      end
  end.
Proof.
  intros Hbase cl head. unfold StartConnection. rewrite Hbase, bind_done.
  unfold setupContracts.
  destruct (NewBisectionChallenge (base c)) as [b|err].
  2:{ simpl. rewrite app_nil_r. reflexivity. }
  fold (connected c b). cbn [base connected client]. fold cl.
  unfold HeaderByNumber. fold head.
  destruct (headFault cl) as [err|] eqn:Hhead.
  { reflexivity. }
  pose proof (FilterLogs_history c b) as Hfl. fold cl head in Hfl.
  destruct (filterFault cl) as [err|] eqn:Hfilter.
  { unfold FilterLogs. rewrite Hfilter. reflexivity. }
  unfold SubscribeFilterLogs.
  cbn [emit ret bind fst snd app].
  rewrite (Hfl eq_refl). cbn [bind fst snd app].
  destruct (processHistory (connected c b) (historical c (types.Number head)))
    as [ht [[err|]|p]] eqn:Hhist; unfold trace_of, result_of; cbn [fst snd].
  - cbn [emit ret bind fst snd app]. rewrite ?app_nil_r. reflexivity.
  - destruct (subscribeFault cl) as [err|]; cbn [emit ret bind fst snd app];
      rewrite <- ?app_assoc; reflexivity.
  - reflexivity.
Qed.

Lemma spawned_app (t1 t2 : Trace) : spawned (t1 ++ t2) = (spawned t1 + spawned t2)%nat.
Proof.
  unfold spawned. rewrite filter_app, length_app. reflexivity.
Qed.

Lemma quiet_spawned (t : Trace) : forallb quiet t = true -> spawned t = 0%nat.
Proof.
  unfold spawned. induction t as [|e t IH]; [reflexivity|]. simpl. intros H.
  apply andb_true_iff in H. destruct H as [He Ht].
  destruct e; try discriminate; simpl; auto.
Qed.

(** C8 (as amended).  Once the embedded challenge has started, every
    failure of start-up or of the historical phase is the error
    [StartConnection] returns.  The call then has sent on [errChan],
    started as tasks and holds as subscriptions exactly what the
    embedded challenge's [StartConnection] had sent, started and held
    before: it adds no error, no task and no subscription of its own,
    and it undoes nothing of the embedded challenge either. *)
Theorem StartConnection_returns_failure
    (c : bisectionChallenge) (bt : Trace) (err : error)
    (Hbase : baseStartConnection (base c) = (bt, Done None))
    (Hfail : StartupFailure c err) :
  exists c',
    result_of (StartConnection c) = Done (c', Some err) /\
    errors (trace_of (StartConnection c)) = errors bt /\
    spawned (trace_of (StartConnection c)) = spawned bt /\
    (forall now, held now (trace_of (StartConnection c)) = held now bt) /\
    exists own,
      trace_of (StartConnection c) = (bt ++ own)%list /\
      forallb quiet own = true.
Proof.
  assert (Hq : exists c' own,
             StartConnection c = ((bt ++ own)%list, Done (c', Some err)) /\
             forallb quiet own = true).
  { rewrite (StartConnection_eq c bt Hbase). cbv zeta.
    destruct Hfail as [e Hc | b e Hc Hh | b e Hc Hh Hf
                      | b pre post l e Hc Hh Hf Hhist Hpre Hl
                      | b e Hc Hh Hf Hhist Hs]; rewrite Hc.
    - exists c, []. rewrite app_nil_r. auto.
    - rewrite Hh. eexists _, _. split; [reflexivity|reflexivity].
    - rewrite Hh, Hf. eexists _, _. split; [reflexivity|reflexivity].
    - rewrite Hh, Hf, Hhist.
      rewrite (processHistory_first_error _ pre post l e Hpre Hl).
      eexists _, _. split; [reflexivity|].
      cbn [forallb quiet andb]. apply processHistory_quiet.
    - rewrite Hh, Hf, Hhist, Hs.
      eexists _, _. split; [rewrite <- app_assoc; reflexivity|].
      rewrite forallb_app. cbn [app forallb quiet andb].
      rewrite processHistory_quiet. reflexivity. }
  destruct Hq as (c' & own & Heq & Hquiet).
  exists c'. rewrite Heq. unfold trace_of, result_of. cbn [fst snd].
  split; [reflexivity|].
  split; [rewrite errors_app, (quiet_errors _ Hquiet), app_nil_r; reflexivity|].
  split; [rewrite spawned_app, (quiet_spawned _ Hquiet); apply Nat.add_0_r|].
  split; [intros now; rewrite held_app; apply quiet_held; exact Hquiet|].
  exists own. auto.
Qed.

(** ** History followed by the live feed *)

Lemma processEvents_matching (c : bisectionChallenge) (b : BisectionChallengeBinding)
    (l : types.Log) (n : arbbridge.Notification) :
  matches c l = true ->
  notify c b l = Some n ->
  processEvents (connected c b) l
  = ([CallHeaderByHash (types.BlockHash l); SendOut n], Done None).
Proof.
  intros Hm Hn. unfold notify in Hn.
  destruct (headerOf (client (base c)) (types.BlockHash l)) as [header|e] eqn:Hh;
    [|discriminate].
  destruct (ParseContinued b l) as [contChal|e] eqn:Hp; [|discriminate].
  injection Hn as <-.
  pose proof (matches_firstTopic c l Hm) as Ht. unfold firstTopic in Ht.
  rewrite processEvents_eq. cbn [connected base BisectionChallenge].
  rewrite Hh. destruct (types.Topics l) as [|t ts]; [discriminate|].
  injection Ht as ->. rewrite Z.eqb_refl, Hp. reflexivity.
Qed.

Lemma processHistory_delivers (c : bisectionChallenge) (b : BisectionChallengeBinding)
    (logs : list types.Log) :
  (forall l, In l logs -> matches c l = true /\ resolves c b l) ->
  exists tr,
    processHistory (connected c b) logs = (tr, Done None) /\
    map Some (sent tr) = map (notify c b) logs /\
    map arbbridge.BlockHeight (sent tr) = map types.BlockNumber logs.
Proof.
  induction logs as [|l logs IH]; intros Hall.
  - exists []. repeat split.
  - destruct (Hall l (or_introl eq_refl)) as [Hm (n & Hn & Hheight)].
    destruct IH as (tr & Hrun & Hsent & Hheights).
    { intros l' Hin. apply Hall. right. exact Hin. }
    exists ([CallHeaderByHash (types.BlockHash l); SendOut n] ++ tr)%list.
    rewrite processHistory_cons, (processEvents_matching c b l n Hm Hn), Hrun.
    split; [reflexivity|]. simpl. rewrite Hsent, Hheights, Hn, Hheight.
    split; reflexivity.
Qed.

Lemma liveLoop_delivers (c : bisectionChallenge) (b : BisectionChallengeBinding)
    (logs : list types.Log) :
  (forall l, In l logs -> matches c l = true /\ resolves c b l) ->
  exists tr,
    liveLoop (connected c b) (map LogReceived logs) = (tr, Done Selecting) /\
    map Some (sent tr) = map (notify c b) logs /\
    map arbbridge.BlockHeight (sent tr) = map types.BlockNumber logs.
Proof.
  induction logs as [|l logs IH]; intros Hall.
  - exists []. repeat split.
  - destruct (Hall l (or_introl eq_refl)) as [Hm (n & Hn & Hheight)].
    destruct IH as (tr & Hrun & Hsent & Hheights).
    { intros l' Hin. apply Hall. right. exact Hin. }
    exists ([CallHeaderByHash (types.BlockHash l); SendOut n] ++ tr)%list.
    cbn [map]. rewrite liveLoop_log, (processEvents_matching c b l n Hm Hn), Hrun.
    split; [reflexivity|]. simpl. rewrite Hsent, Hheights, Hn, Hheight.
    split; reflexivity.
Qed.

Lemma In_firstn {A} (k : nat) (l : list A) (x : A) : In x (firstn k l) -> In x l.
Proof.
  intros Hin. rewrite <- (firstn_skipn k l). apply in_or_app. left. exact Hin.
Qed.

Lemma StronglySorted_prefix (l1 l2 : list Z) :
  StronglySorted Z.le (l1 ++ l2) -> StronglySorted Z.le l1.
Proof.
  tidy.
  induction l1 as [|a l1 IH]; intros Hs; [constructor|].
  simpl in Hs. inversion Hs as [|a' l' Hrest Hall]; subst.
  constructor; [apply IH; exact Hrest|].
  apply Forall_app in Hall. tauto.
Qed.

Lemma StronglySorted_filter (p : types.Log -> bool) (logs : list types.Log) :
  StronglySorted Z.le (map types.BlockNumber logs) ->
  StronglySorted Z.le (map types.BlockNumber (filter p logs)).
Proof.
  tidy.
  induction logs as [|l logs IH]; intros Hs; [constructor|].
  simpl in Hs. inversion Hs as [|a' l' Hrest Hall]; subst. simpl.
  destruct (p l); [|apply IH; exact Hrest].
  simpl. constructor; [apply IH; exact Hrest|].
  rewrite Forall_forall in *. intros z Hz.
  apply in_map_iff in Hz. destruct Hz as (x & <- & Hx).
  apply filter_In in Hx. apply Hall. apply in_map. tauto.
Qed.

(** In a log ordered by height, the matching entries up to [H] followed
    by the matching entries from [H + 1] on are the matching entries,
    each once and in log order. *)
Lemma historical_live_partition (c : bisectionChallenge) (H : Z) :
  StronglySorted Z.le (map types.BlockNumber (chainLogs (client (base c)))) ->
  (historical c H ++ live c H)%list = filter (matches c) (chainLogs (client (base c))).
Proof.
  unfold historical, live.
  induction (chainLogs (client (base c))) as [|l logs IH]; intros Hs; [reflexivity|].
  simpl in Hs. inversion Hs as [|a' l' Hrest Hall]; subst.
  specialize (IH Hrest). simpl.
  destruct (matches c l); simpl; [|exact IH].
  destruct (Z.leb_spec (types.BlockNumber l) H) as [Hle|Hgt].
  - destruct (Z.leb_spec (H + 1) (types.BlockNumber l)) as [Hge|_]; [lia|].
    simpl. rewrite IH. reflexivity.
  - destruct (Z.leb_spec (H + 1) (types.BlockNumber l)) as [_|Hlt]; [|lia].
    assert (Hnone : filter (fun l0 => matches c l0 && (types.BlockNumber l0 <=? H)) logs = []).
    { clear IH Hrest Hs. induction logs as [|x logs IHl]; [reflexivity|].
      simpl in Hall. inversion Hall as [|? ? Hx Hall']; subst. simpl.
      destruct (Z.leb_spec (types.BlockNumber x) H) as [Hxle|_]; [lia|].
      rewrite andb_false_r. apply IHl. exact Hall'. }
    rewrite Hnone in *. simpl in *. rewrite IH. reflexivity.
Qed.

Lemma historical_live_perm (c : bisectionChallenge) (H : Z) :
  Permutation (historical c H ++ live c H)
              (filter (matches c) (chainLogs (client (base c)))).
Proof.
  tidy.
  unfold historical, live.
  induction (chainLogs (client (base c))) as [|l logs IH]; [constructor|].
  cbn [filter]. destruct (matches c l); cbn [andb]; [|exact IH].
  destruct (Z.leb_spec (types.BlockNumber l) H) as [Hle|Hgt].
  - destruct (Z.leb_spec (H + 1) (types.BlockNumber l)) as [Hge|_]; [lia|].
    cbn [app]. constructor. exact IH.
  - destruct (Z.leb_spec (H + 1) (types.BlockNumber l)) as [_|Hlt]; [|lia].
    apply Permutation_sym, Permutation_cons_app, Permutation_sym. exact IH.
Qed.

Lemma historical_live_disjoint (c : bisectionChallenge) (H : Z) (l : types.Log) :
  In l (historical c H) -> In l (live c H) -> False.
Proof.
  tidy.
  unfold historical, live. intros Hh Hl.
  apply filter_In in Hh. apply filter_In in Hl.
  destruct Hh as [_ Hh]. destruct Hl as [_ Hl].
  apply andb_true_iff in Hh. apply andb_true_iff in Hl.
  destruct Hh as [_ Hh]. destruct Hl as [_ Hl].
  apply Z.leb_le in Hh. apply Z.leb_le in Hl. lia.
Qed.

Lemma lastSubscribe_app (found : option ethereum.FilterQuery) (t1 t2 : Trace) :
  lastSubscribe found (t1 ++ t2) = lastSubscribe (lastSubscribe found t1) t2.
Proof.
  revert found. induction t1 as [|e t1 IH]; intros found; [reflexivity|].
  destruct e; apply IH.
Qed.

(** C1 (as amended).  Provided the embedded challenge starts, the
    contract binds, the head read, the historical query and the
    subscription succeed, and every matching entry of the log resolves
    and decodes: the call reads the head (height [H]), queries the
    history with upper bound [H], processes it, subscribes from [H + 1]
    with no upper bound and only then starts the task, which takes the
    entries of that subscription's channel in order.  The channel holds
    the matching entries from [H + 1] on.  The notifications of the
    history are those due for the matching entries up to [H], in log
    order; they are followed by those due for the first [k] entries of
    the channel.  History and channel together hold every matching
    entry of the log exactly once.  On a log ordered by height they are
    the matching entries in log order, and the heights of the
    notifications never decrease. *)
Theorem session_no_gap_no_duplicate
    (c : bisectionChallenge) (b : BisectionChallengeBinding) (bt : Trace) (k : nat)
    (Hbase : baseStartConnection (base c) = (bt, Done None))
    (Hconnect : NewBisectionChallenge (base c) = OK b)
    (Hhead : headFault (client (base c)) = None)
    (Hquery : filterFault (client (base c)) = None)
    (Hsubscribe : subscribeFault (client (base c)) = None)
    (Hentries : forall l, In l (chainLogs (client (base c))) ->
                          matches c l = true -> resolves c b l) :
  let H := types.Number (chainHead (client (base c))) in
  let historyQuery :=
    {| ethereum.FromBlock := None;
       ethereum.ToBlock := Some H;
       ethereum.Addresses := [address (base c)];
       ethereum.Topics := [[continuedChallengeID]] |} in
  let liveQuery :=
    {| ethereum.FromBlock := Some (H + 1);
       ethereum.ToBlock := None;
       ethereum.Addresses := [address (base c)];
       ethereum.Topics := [[continuedChallengeID]] |} in
  exists histTrace liveTrace,
    synchronize c k
    = ((bt ++ [CallHeaderByNumber; CallFilterLogs historyQuery]
           ++ histTrace
           ++ [CallSubscribeFilterLogs liveQuery; Subscribed; Spawn]
           ++ liveTrace)%list,
       Done None) /\
    channel c = live c H /\
    map Some (sent histTrace) = map (notify c b) (historical c H) /\
    map Some (sent liveTrace) = map (notify c b) (firstn k (live c H)) /\
    Permutation (historical c H ++ live c H)
                (filter (matches c) (chainLogs (client (base c)))) /\
    (forall l, In l (historical c H) -> In l (live c H) -> False) /\
    (Sorted Z.le (map types.BlockNumber (chainLogs (client (base c)))) ->
     (historical c H ++ live c H)%list
     = filter (matches c) (chainLogs (client (base c))) /\
     Sorted Z.le (map arbbridge.BlockHeight (sent histTrace ++ sent liveTrace))).
Proof.
  tidy.
  intros H historyQuery liveQuery. subst liveQuery historyQuery H.
  set (H := types.Number (chainHead (client (base c)))).
  pose proof (subscriptionFeed_live c b) as Hfeed. fold H in Hfeed.
  destruct (processHistory_delivers c b (historical c H))
    as (histTrace & Hhist & Hhsent & Hhheights).
  { intros l Hin. apply filter_In in Hin. destruct Hin as [Hin Hl].
    apply andb_true_iff in Hl. destruct Hl as [Hm _]. auto. }
  destruct (liveLoop_delivers c b (firstn k (live c H)))
    as (liveTrace & Hlive & Hlsent & Hlheights).
  { intros l Hin. apply In_firstn in Hin. apply filter_In in Hin.
    destruct Hin as [Hin Hl].
    apply andb_true_iff in Hl. destruct Hl as [Hm _]. auto. }
  assert (Hstart : StartConnection c
                   = (((bt ++ [CallHeaderByNumber;
                               CallFilterLogs (historyFilter (connected c b)
                                                 (chainHead (client (base c))))]
                           ++ histTrace)
                         ++ [CallSubscribeFilterLogs
                               (liveFilter (connected c b) (chainHead (client (base c))));
                             Subscribed; Spawn])%list,
                      Done (connected c b, None))).
  { rewrite (StartConnection_eq c bt Hbase). cbv zeta.
    rewrite Hconnect, Hhead, Hquery. fold H.
    unfold result_of, trace_of. rewrite Hhist. cbn [fst snd].
    rewrite Hsubscribe. reflexivity. }
  assert (Hchannel : channel c = live c H).
  { unfold channel. rewrite Hstart. unfold trace_of. cbn [fst].
    rewrite lastSubscribe_app. cbn [lastSubscribe]. exact Hfeed. }
  exists histTrace, liveTrace.
  split; [|split; [exact Hchannel|split; [exact Hhsent|split; [exact Hlsent|
          split; [apply historical_live_perm|
          split; [apply historical_live_disjoint|]]]]]].
  - unfold synchronize, session. rewrite Hchannel, Hstart, bind_done.
    unfold backgroundTask. rewrite Hlive.
    cbn [deferUnsubscribe bind ret fst snd].
    rewrite app_nil_r, <- !app_assoc. reflexivity.
  - intros Hsorted.
    assert (Hss : StronglySorted Z.le
                    (map types.BlockNumber (chainLogs (client (base c))))).
    { apply Sorted_StronglySorted; [|exact Hsorted].
      intros x y z. apply Z.le_trans. }
    pose proof (historical_live_partition c H Hss) as Hpart.
    split; [exact Hpart|].
    apply StronglySorted_Sorted. rewrite map_app, Hhheights, Hlheights.
    rewrite <- firstn_map, <- firstn_app_2.
    apply (StronglySorted_prefix _
             (skipn (length (map types.BlockNumber (historical c H)) + k)
                    (map types.BlockNumber (historical c H)
                     ++ map types.BlockNumber (live c H)))).
    rewrite firstn_skipn, <- map_app, Hpart.
    apply StronglySorted_filter. exact Hss.
Qed.

(** * Further properties *)

(** ** [processEvents] *)

(** X1.  Whatever the entry and however the call ends, [processEvents]
    makes exactly one client call, the header lookup of the entry's
    block hash; it sends at most one notification, and none unless it
    returns [nil]. *)
Theorem processEvents_one_lookup_all_or_nothing
    (c : bisectionChallenge) (l : types.Log) :
  reads (trace_of (processEvents c l)) = [CallHeaderByHash (types.BlockHash l)] /\
  (length (sent (trace_of (processEvents c l))) <= 1)%nat /\
  (result_of (processEvents c l) <> Done None ->
   sent (trace_of (processEvents c l)) = []).
Proof.
  rewrite processEvents_eq.
  destruct (headerOf _ _) as [header|err].
  2:{ repeat split; simpl; auto. }
  destruct (types.Topics l) as [|t0 ts]; [repeat split; simpl; auto|].
  destruct (t0 =? continuedChallengeID); [|repeat split; simpl; auto].
  destruct (BisectionChallenge c) as [b|]; [|repeat split; simpl; auto].
  destruct (ParseContinued b l); repeat split; simpl; auto.
  intros H. contradiction H. reflexivity.
Qed.

(** ** The background task on any schedule *)

Lemma liveLoop_shape (c : bisectionChallenge) (sched : list SelectCase) :
  match result_of (liveLoop c sched) with
  | Done Returned =>
      exists t0 err,
        trace_of (liveLoop c sched) = (t0 ++ [SendErr err])%list /\
        forallb quiet t0 = true
  | _ => forallb quiet (trace_of (liveLoop c sched)) = true
  end.
Proof.
  induction sched as [|ev sched IH]; [reflexivity|].
  destruct ev as [|l|err].
  - exact IH.
  - rewrite liveLoop_log. pose proof (processEvents_quiet c l) as Hq.
    destruct (processEvents c l) as [t [[err|]|p]]; unfold trace_of, result_of in *;
      cbn [fst snd] in *.
    + exists t, err. auto.
    + destruct (snd (liveLoop c sched)) as [[|]|p].
      * rewrite forallb_app, Hq. exact IH.
      * destruct IH as (t0 & err & Ht & Hq0). exists (t ++ t0)%list, err.
        rewrite Ht, app_assoc, forallb_app, Hq, Hq0. auto.
      * rewrite forallb_app, Hq. exact IH.
    + exact Hq.
  - exists [], err. auto.
Qed.

(** X2.  The life of the task on any schedule.  While it is selecting
    it has sent no error and still holds the subscription.  It sends an
    error exactly when it returns: one error, followed only by the
    deferred [Unsubscribe].  If it panics, [Unsubscribe] is again its
    last effect.  Before these final effects it never touches [errChan]
    or the subscription. *)
Theorem backgroundTask_lifecycle (c : bisectionChallenge) (sched : list SelectCase) :
  match result_of (backgroundTask c sched) with
  | Done Selecting =>
      forallb quiet (trace_of (backgroundTask c sched)) = true /\
      errors (trace_of (backgroundTask c sched)) = [] /\
      held true (trace_of (backgroundTask c sched)) = true
  | Done Returned =>
      exists t0 err,
        trace_of (backgroundTask c sched) = (t0 ++ [SendErr err; Unsubscribe])%list /\
        forallb quiet t0 = true /\
        errors (trace_of (backgroundTask c sched)) = [err] /\
        held true (trace_of (backgroundTask c sched)) = false
  | Panicked _ =>
      exists t0,
        trace_of (backgroundTask c sched) = (t0 ++ [Unsubscribe])%list /\
        forallb quiet t0 = true /\
        errors (trace_of (backgroundTask c sched)) = [] /\
        held true (trace_of (backgroundTask c sched)) = false
  end.
Proof.
  unfold backgroundTask. pose proof (liveLoop_shape c sched) as Hs.
  destruct (liveLoop c sched) as [t [[|]|p]]; unfold trace_of, result_of in *;
    cbn [fst snd deferUnsubscribe] in *.
  - split; [exact Hs|]. split; [apply quiet_errors|apply quiet_held]; exact Hs.
  - destruct Hs as (t0 & err & -> & Hq). exists t0, err.
    rewrite <- app_assoc. split; [reflexivity|]. split; [exact Hq|].
    rewrite errors_app, held_app, (quiet_errors _ Hq). auto.
  - exists t. split; [reflexivity|]. split; [exact Hs|].
    rewrite errors_app, held_app, (quiet_errors _ Hs). auto.
Qed.

(** X4.  What the task has done is never undone by a longer schedule:
    its effects on [pre] are a prefix of its effects on [pre ++ rest],
    and once it has returned or panicked the rest of the schedule adds
    nothing. *)
Theorem backgroundTask_extends (c : bisectionChallenge) (pre rest : list SelectCase) :
  exists more,
    trace_of (backgroundTask c (pre ++ rest))
    = (trace_of (backgroundTask c pre) ++ more)%list /\
    (result_of (backgroundTask c pre) <> Done Selecting ->
     backgroundTask c (pre ++ rest) = backgroundTask c pre).
Proof.
  assert (Hloop : match liveLoop c pre with
                  | (tr, Done Selecting) =>
                      liveLoop c (pre ++ rest)
                      = ((tr ++ fst (liveLoop c rest))%list, snd (liveLoop c rest))
                  | other => liveLoop c (pre ++ rest) = other
                  end).
  { induction pre as [|ev pre IH].
    - simpl. destruct (liveLoop c rest); reflexivity.
    - destruct ev as [|l|err].
      + exact IH.
      + rewrite <- app_comm_cons, !liveLoop_log.
        destruct (processEvents c l) as [t [[err|]|p]]; try reflexivity.
        destruct (liveLoop c pre) as [tr [[|]|p]]; cbn [fst snd]; rewrite IH;
          cbn [fst snd]; rewrite ?app_assoc; reflexivity.
      + reflexivity. }
  unfold backgroundTask.
  destruct (liveLoop c pre) as [tr [[|]|p]]; rewrite Hloop.
  - destruct (liveLoop c rest) as [t' [[|]|p]];
      unfold trace_of, result_of; cbn [fst snd deferUnsubscribe].
    + exists t'. split; [reflexivity|]. intros H; contradiction H; reflexivity.
    + exists (t' ++ [Unsubscribe])%list. rewrite app_assoc.
      split; [reflexivity|]. intros H; contradiction H; reflexivity.
    + exists (t' ++ [Unsubscribe])%list. rewrite app_assoc.
      split; [reflexivity|]. intros H; contradiction H; reflexivity.
  - exists []. rewrite app_nil_r. auto.
  - exists []. rewrite app_nil_r. auto.
Qed.

(** ** [StartConnection] on any connection *)

Lemma historical_matches (c : bisectionChallenge) (H : Z) (l : types.Log) :
  In l (historical c H) -> matches c l = true.
Proof.
  tidy.
  unfold historical. intros Hin. apply filter_In in Hin.
  destruct Hin as [_ Hl]. apply andb_true_iff in Hl. tauto.
Qed.

Lemma processEvents_matching_returns (c : bisectionChallenge)
    (b : BisectionChallengeBinding) (l : types.Log) :
  matches c l = true ->
  exists r, result_of (processEvents (connected c b) l) = Done r.
Proof.
  intros Hm. pose proof (matches_firstTopic c l Hm) as Ht. unfold firstTopic in Ht.
  rewrite processEvents_eq. cbn [connected base BisectionChallenge].
  destruct (headerOf _ _) as [header|err]; [|simpl; eauto].
  destruct (types.Topics l) as [|t ts]; [discriminate|].
  destruct (t =? continuedChallengeID); [|simpl; eauto].
  destruct (ParseContinued b l); simpl; eauto.
Qed.

Lemma processHistory_matching_returns (c : bisectionChallenge)
    (b : BisectionChallengeBinding) (logs : list types.Log) :
  (forall l, In l logs -> matches c l = true) ->
  exists r, result_of (processHistory (connected c b) logs) = Done r.
Proof.
  induction logs as [|l logs IH]; intros Hall; [simpl; eauto|].
  rewrite processHistory_cons.
  destruct (processEvents_matching_returns c b l (Hall l (or_introl eq_refl)))
    as [r Hr].
  destruct (processEvents (connected c b) l) as [t [[err|]|p]];
    unfold result_of in *; cbn [snd] in *; try discriminate; eauto.
  apply IH. intros l' Hin. apply Hall. right. exact Hin.
Qed.

Lemma processHistory_error_split (c : bisectionChallenge) (logs : list types.Log)
    (err : error) :
  result_of (processHistory c logs) = Done (Some err) ->
  exists pre l post,
    logs = (pre ++ l :: post)%list /\
    (forall l', In l' pre -> result_of (processEvents c l') = Done None) /\
    result_of (processEvents c l) = Done (Some err).
Proof.
  tidy.
  induction logs as [|l logs IH]; [discriminate|].
  rewrite processHistory_cons.
  destruct (processEvents c l) as [t [[e|]|p]] eqn:Hl;
    unfold result_of in *; cbn [snd]; try discriminate.
  - intros [= ->]. exists [], l, logs. rewrite Hl. simpl. tauto.
  - intros Hrest. destruct (IH Hrest) as (pre & l0 & post & -> & Hpre & Hl0).
    exists (l :: pre), l0, post. split; [reflexivity|]. split; [|exact Hl0].
    intros l' [<-|Hin]; [rewrite Hl; reflexivity|apply Hpre; exact Hin].
Qed.

(** X5.  If the embedded challenge's [StartConnection] does not panic,
    neither does this one: the historical query admits only entries
    whose first topic is the "Continued" digest, and [setupContracts]
    has assigned the binding before any entry is decoded.  Whatever it
    returns, the call itself sends nothing on [errChan]. *)
Theorem StartConnection_never_panics
    (c : bisectionChallenge) (bt : Trace) (r0 : option error)
    (Hbase : baseStartConnection (base c) = (bt, Done r0)) :
  exists own r,
    StartConnection c = ((bt ++ own)%list, Done r) /\
    errors own = [].
Proof.
  destruct r0 as [err|].
  { exists [], (c, Some err). unfold StartConnection. rewrite Hbase. auto. }
  rewrite (StartConnection_eq c bt Hbase). cbv zeta.
  destruct (NewBisectionChallenge (base c)) as [b|err].
  2:{ exists []. rewrite app_nil_r. eauto. }
  destruct (headFault _) as [err|]; [eexists _, _; split; reflexivity|].
  destruct (filterFault _) as [err|]; [eexists _, _; split; reflexivity|].
  set (H := types.Number (chainHead (client (base c)))).
  pose proof (processHistory_quiet (connected c b) (historical c H)) as Hq.
  apply quiet_errors in Hq.
  destruct (processHistory_matching_returns c b (historical c H)
              (historical_matches c H)) as [r Hr].
  rewrite Hr. destruct r as [err|].
  - eexists _, _. split; [reflexivity|]. exact Hq.
  - destruct (subscribeFault _) as [err|];
      (eexists _, _; split; [rewrite <- app_assoc; reflexivity|]);
      cbn [app errors]; rewrite errors_app, Hq; reflexivity.
Qed.

(** X6.  The errors of C8 are the only ones: when the embedded challenge
    has started and [StartConnection] returns an error, one of the
    start-up failures has occurred with that error. *)
Theorem StartConnection_error_is_startup_failure
    (c c' : bisectionChallenge) (bt : Trace) (err : error)
    (Hbase : baseStartConnection (base c) = (bt, Done None))
    (Herr : result_of (StartConnection c) = Done (c', Some err)) :
  StartupFailure c err.
Proof.
  rewrite (StartConnection_eq c bt Hbase) in Herr. cbv zeta in Herr.
  destruct (NewBisectionChallenge (base c)) as [b|e] eqn:Hc.
  2:{ injection Herr as _ <-. apply ConnectFailure. exact Hc. }
  destruct (headFault _) as [e|] eqn:Hh.
  { injection Herr as _ <-. apply (HeadFailure c b); assumption. }
  destruct (filterFault _) as [e|] eqn:Hf.
  { injection Herr as _ <-. apply (QueryFailure c b); assumption. }
  destruct (result_of (processHistory _ _)) as [[e|]|p] eqn:Hhist;
    [| |discriminate].
  - injection Herr as _ <-.
    destruct (processHistory_error_split _ _ _ Hhist) as (pre & l & post & Hs & Hpre & Hl).
    apply (HistoryFailure c b pre post l); assumption.
  - destruct (subscribeFault _) as [e|] eqn:Hs; [|discriminate].
    injection Herr as _ <-. apply (SubscribeFailure c b); assumption.
Qed.

Lemma processEvents_lookupOrNotify (c : bisectionChallenge) (l : types.Log) :
  forallb lookupOrNotify (trace_of (processEvents c l)) = true.
Proof.
  rewrite processEvents_eq.
  destruct (headerOf _ _); [|reflexivity].
  destruct (types.Topics l) as [|t0 ts]; [reflexivity|].
  destruct (t0 =? continuedChallengeID); [|reflexivity].
  destruct (BisectionChallenge c) as [b|]; [|reflexivity].
  destruct (ParseContinued b l); reflexivity.
Qed.

Lemma processHistory_lookupOrNotify (c : bisectionChallenge) (logs : list types.Log) :
  forallb lookupOrNotify (trace_of (processHistory c logs)) = true.
Proof.
  induction logs as [|l logs IH]; [reflexivity|].
  rewrite processHistory_cons. pose proof (processEvents_lookupOrNotify c l) as Hq.
  destruct (processEvents c l) as [t [[err|]|p]]; try exact Hq.
  unfold trace_of in *. simpl in *. rewrite forallb_app, Hq. exact IH.
Qed.

(** X7.  When the embedded challenge has started and [StartConnection]
    returns [nil], the receiver holds the binding just created and the
    call has, after the effects of the embedded challenge and in this
    order: read the head (height [H]); queried the entries of this
    contract with the "Continued" topic up to [H]; processed the
    matching entries up to [H], making header lookups and sending
    notifications only; requested the subscription from [H + 1] with no
    upper bound; and started the task as its last act.  It has started
    exactly one task more than the embedded challenge, and a
    subscription is held at the end. *)
Theorem StartConnection_success_shape
    (c c' : bisectionChallenge) (bt : Trace)
    (Hbase : baseStartConnection (base c) = (bt, Done None))
    (Hok : result_of (StartConnection c) = Done (c', None)) :
  let H := types.Number (chainHead (client (base c))) in
  exists b,
    NewBisectionChallenge (base c) = OK b /\
    c' = connected c b /\
    trace_of (StartConnection c)
    = (bt ++ [CallHeaderByNumber;
              CallFilterLogs
                {| ethereum.FromBlock := None;
                   ethereum.ToBlock := Some H;
                   ethereum.Addresses := [address (base c)];
                   ethereum.Topics := [[continuedChallengeID]] |}]
          ++ trace_of (processHistory c' (historical c H))
          ++ [CallSubscribeFilterLogs
                {| ethereum.FromBlock := Some (H + 1);
                   ethereum.ToBlock := None;
                   ethereum.Addresses := [address (base c)];
                   ethereum.Topics := [[continuedChallengeID]] |};
              Subscribed; Spawn])%list /\
    forallb lookupOrNotify (trace_of (processHistory c' (historical c H))) = true /\
    spawned (trace_of (StartConnection c)) = S (spawned bt) /\
    (forall now, held now (trace_of (StartConnection c)) = true).
Proof.
  intros H. subst H.
  rewrite (StartConnection_eq c bt Hbase) in *. cbv zeta in *.
  destruct (NewBisectionChallenge (base c)) as [b|e]; [|discriminate].
  destruct (headFault _) as [e|]; [discriminate|].
  destruct (filterFault _) as [e|]; [discriminate|].
  set (H := types.Number (chainHead (client (base c)))) in *.
  pose proof (processHistory_quiet (connected c b) (historical c H)) as Hq.
  pose proof (processHistory_lookupOrNotify (connected c b) (historical c H)) as Hl.
  destruct (result_of (processHistory _ _)) as [[e|]|p]; [discriminate| |discriminate].
  destruct (subscribeFault _) as [e|]; [discriminate|].
  injection Hok as <-.
  exists b. split; [reflexivity|]. split; [reflexivity|].
  set (hist := trace_of (processHistory (connected c b) (historical c H))) in *.
  unfold trace_of. cbn [fst].
  split; [rewrite <- !app_assoc; reflexivity|].
  split; [exact Hl|]. split.
  - rewrite !spawned_app, (quiet_spawned _ Hq). cbn. lia.
  - intros now. rewrite !held_app. reflexivity.
Qed.

(** X8.  [StartConnection] does not depend on the binding the receiver
    held before the call: [setupContracts] assigns a fresh one.  With
    any other value in that field the call has the same effects and
    returns the same error, and on success the same receiver. *)
Theorem StartConnection_rebinds
    (c : bisectionChallenge) (x : option BisectionChallengeBinding) :
  trace_of (StartConnection (withBinding c x)) = trace_of (StartConnection c) /\
  forall c1 e,
    result_of (StartConnection c) = Done (c1, e) ->
    exists c2,
      result_of (StartConnection (withBinding c x)) = Done (c2, e) /\
      (e = None -> c2 = c1).
Proof.
  unfold StartConnection, setupContracts. cbn [withBinding base].
  destruct (baseStartConnection (base c)) as [bt [[e0|]|p]].
  - split; [reflexivity|]. intros c1 e [= <- <-]. eexists. split; [reflexivity|].
    discriminate.
  - rewrite !bind_done.
    destruct (NewBisectionChallenge (base c)) as [b|e0].
    + split; [reflexivity|]. intros c1 e He. exists c1. split; [exact He|auto].
    + split; [reflexivity|]. intros c1 e [= <- <-]. eexists. split; [reflexivity|].
      discriminate.
  - split; [reflexivity|]. discriminate.
Qed.

(** ** [processHistory] *)

(** X9.  The historical loop stops at the first entry that does not
    return [nil]: its effects are those of the entries before it and of
    that entry, its result is the result of that entry, and the entries
    after it are never looked up. *)
Theorem processHistory_stops_at_failure
    (c : bisectionChallenge) (pre post : list types.Log) (l : types.Log)
    (Hpre : result_of (processHistory c pre) = Done None)
    (Hl : result_of (processEvents c l) <> Done None) :
  processHistory c (pre ++ l :: post)
  = ((trace_of (processHistory c pre) ++ trace_of (processEvents c l))%list,
     result_of (processEvents c l)).
Proof.
  induction pre as [|l0 pre IH].
  - simpl app. rewrite processHistory_cons.
    destruct (processEvents c l) as [t [[e|]|p]]; try reflexivity.
    exfalso. apply Hl. reflexivity.
  - rewrite <- app_comm_cons, processHistory_cons.
    rewrite processHistory_cons in Hpre |- *.
    destruct (processEvents c l0) as [t [[e|]|p]]; try discriminate.
    unfold trace_of, result_of in *. cbn [fst snd] in *.
    rewrite (IH Hpre). cbn [fst snd]. rewrite app_assoc. reflexivity.
Qed.

(** ** The two queries *)

(** X10.  When the historical query succeeds, the entries it returns
    for the query [StartConnection] builds (upper bound: the head height
    read) and the entries the subscription delivers for the query it
    builds next (lower bound: that height plus one, no upper bound)
    split the matching entries of the log, ordered or not and however
    far the chain has grown when the query is served: together they are
    the matching entries, each once, and no entry is in both. *)
Theorem historical_live_split
    (c : bisectionChallenge)
    (Hquery : filterFault (client (base c)) = None) :
  exists hist,
    result_of (FilterLogs (client (base c))
                 (historyFilter c (chainHead (client (base c)))))
    = Done (OK hist) /\
    Permutation
      (hist ++ subscriptionFeed (client (base c))
                 (liveFilter c (chainHead (client (base c)))))
      (filter (matches c) (chainLogs (client (base c)))) /\
    forall l,
      In l hist ->
      In l (subscriptionFeed (client (base c))
              (liveFilter c (chainHead (client (base c))))) ->
      False.
Proof.
  tidy.
  set (H := types.Number (chainHead (client (base c)))).
  exists (historical c H).
  assert (Hfeed : subscriptionFeed (client (base c))
                    (liveFilter c (chainHead (client (base c)))) = live c H).
  { unfold subscriptionFeed, live. apply filter_ext. intros l.
    unfold up_to. cbn [liveFilter ethereum.ToBlock]. rewrite andb_true_r.
    reflexivity. }
  rewrite Hfeed. split; [|split].
  - unfold FilterLogs. rewrite Hquery. unfold emit, ret, bind, result_of.
    cbn [snd]. do 2 f_equal. unfold historical. apply filter_ext. intros l.
    unfold criteria_match, from_ok, to_ok, matches. simpl.
    rewrite andb_true_r. reflexivity.
  - apply historical_live_perm.
  - apply historical_live_disjoint.
Qed.

(** ** What the task sends *)

Lemma sent_backgroundTask (c : bisectionChallenge) (sched : list SelectCase) :
  sent (trace_of (backgroundTask c sched)) = sent (trace_of (liveLoop c sched)).
Proof.
  unfold backgroundTask.
  destruct (liveLoop c sched) as [t [[|]|p]]; unfold trace_of; cbn [fst deferUnsubscribe];
    rewrite ?sent_app; cbn [sent]; rewrite ?app_nil_r; reflexivity.
Qed.

(** X11.  On any schedule, every notification the task sends is for an
    entry it received on [logChan] whose first topic is the "Continued"
    digest; it carries this contract's address, the transaction hash of
    that entry and the hash and number of the header the client returned
    for the entry's block hash. *)
Theorem backgroundTask_notifies_received_only
    (c : bisectionChallenge) (sched : list SelectCase) (n : arbbridge.Notification)
    (Hsent : In n (sent (trace_of (backgroundTask c sched)))) :
  exists l header,
    In l (received sched) /\
    firstTopic l = Done continuedChallengeID /\
    headerOf (client (base c)) (types.BlockHash l) = OK header /\
    arbbridge.BlockHeader n = types.Hash header /\
    arbbridge.BlockHeight n = types.Number header /\
    arbbridge.VMID n = address (base c) /\
    arbbridge.TxHash n = types.TxHash l.
Proof.
  rewrite sent_backgroundTask in Hsent.
  induction sched as [|ev sched IH]; [contradiction|].
  destruct ev as [|l|err].
  - exact (IH Hsent).
  - rewrite liveLoop_log in Hsent.
    assert (Hhere : In n (sent (trace_of (processEvents c l))) ->
                    exists l0 header,
                      In l0 (received (LogReceived l :: sched)) /\
                      firstTopic l0 = Done continuedChallengeID /\
                      headerOf (client (base c)) (types.BlockHash l0) = OK header /\
                      arbbridge.BlockHeader n = types.Hash header /\
                      arbbridge.BlockHeight n = types.Number header /\
                      arbbridge.VMID n = address (base c) /\
                      arbbridge.TxHash n = types.TxHash l0).
    { intros Hin.
      destruct (processEvents_sent_inv c l n Hin) as (header & b & ev & Hh & Ht & _ & _ & ->).
      exists l, header. cbn [received]. repeat split; auto. left. reflexivity. }
    destruct (processEvents c l) as [t [[err|]|p]]; unfold trace_of in *;
      cbn [fst] in *.
    + rewrite sent_app in Hsent. cbn [sent] in Hsent. rewrite app_nil_r in Hsent.
      exact (Hhere Hsent).
    + rewrite sent_app in Hsent. apply in_app_or in Hsent.
      destruct Hsent as [Hin|Hin]; [exact (Hhere Hin)|].
      destruct (IH Hin) as (l0 & header & Hrec & Hrest).
      exists l0, header. split; [right; exact Hrec|exact Hrest].
    + exact (Hhere Hsent).
  - contradiction.
Qed.

(** X12.  As long as [logChan] delivers only entries of the feed of the
    subscription that [StartConnection] opened, the task of a connected
    receiver never panics: the unguarded [log.Topics[0]] is safe, since
    the subscription admits only entries with that first topic. *)
Theorem backgroundTask_safe_on_feed
    (c : bisectionChallenge) (b : BisectionChallengeBinding) (sched : list SelectCase)
    (Hfeed : incl (received sched)
                  (subscriptionFeed (client (base c))
                     (liveFilter (connected c b) (chainHead (client (base c)))))) :
  exists s, result_of (backgroundTask (connected c b) sched) = Done s.
Proof.
  tidy.
  assert (Hloop : exists s, result_of (liveLoop (connected c b) sched) = Done s).
  { induction sched as [|ev sched IH]; [simpl; eauto|].
    destruct ev as [|l|err].
    - apply IH. exact Hfeed.
    - rewrite liveLoop_log.
      assert (Hm : matches c l = true).
      { specialize (Hfeed l (or_introl eq_refl)).
        rewrite subscriptionFeed_live in Hfeed. unfold live in Hfeed.
        apply filter_In in Hfeed. destruct Hfeed as [_ Hl].
        apply andb_true_iff in Hl. tauto. }
      destruct (processEvents_matching_returns c b l Hm) as [r Hr].
      destruct (processEvents (connected c b) l) as [t [[err|]|p]];
        unfold result_of in *; cbn [snd] in *; try discriminate; eauto.
      apply IH. intros l' Hin. apply Hfeed. right. exact Hin.
    - simpl. eauto. }
  destruct Hloop as [s Hs]. unfold backgroundTask.
  destruct (liveLoop (connected c b) sched) as [t [[|]|p]];
    unfold result_of in *; cbn [snd deferUnsubscribe] in *; try discriminate; eauto.
Qed.

(** ** Construction *)

(** X13.  [setupContracts] never changes the embedded challenge and is
    idempotent.  It returns [nil] exactly when the contract binding was
    created, and the receiver then holds that binding; when it fails the
    receiver is unchanged and the error is the cause wrapped with the
    connection message. *)
Theorem setupContracts_idempotent (c : bisectionChallenge) :
  base (fst (setupContracts c)) = base c /\
  setupContracts (fst (setupContracts c)) = setupContracts c /\
  (forall b, NewBisectionChallenge (base c) = OK b ->
             setupContracts c = (connected c b, None)) /\
  (forall cause, NewBisectionChallenge (base c) = ERR cause ->
                 setupContracts c
                 = (c, Some (Wrap cause "Failed to connect to ChallengeManager"))).
Proof.
  unfold setupContracts.
  destruct (NewBisectionChallenge (base c)) as [b|cause] eqn:Hc; cbn [fst base].
  - rewrite Hc. repeat split; try reflexivity.
    + intros b' [= <-]. reflexivity.
    + discriminate.
  - rewrite Hc. repeat split; try reflexivity.
    + discriminate.
    + intros cause' [= <-]. reflexivity.
Qed.

(** X14.  [newBisectionChallenge] returns no receiver exactly when
    [newChallenge] fails, and then returns that error as it is.  When it
    returns no error the receiver is built on the new challenge and holds
    a binding.  When only the binding fails, it returns the wrapped
    error together with a receiver whose binding is [nil]. *)
Theorem newBisectionChallenge_result
    (newChallenge : ethcommon.Address -> Client -> TransactOpts -> res challenge)
    (addr : ethcommon.Address) (cl : Client) (opts : TransactOpts) :
  (forall err, newChallenge addr cl opts = ERR err ->
               newBisectionChallenge newChallenge addr cl opts = (None, Some err)) /\
  (fst (newBisectionChallenge newChallenge addr cl opts) = None ->
   exists err, newChallenge addr cl opts = ERR err) /\
  (snd (newBisectionChallenge newChallenge addr cl opts) = None ->
   exists ch b,
     newChallenge addr cl opts = OK ch /\
     NewBisectionChallenge ch = OK b /\
     fst (newBisectionChallenge newChallenge addr cl opts)
     = Some {| base := ch; BisectionChallenge := Some b |}) /\
  (forall ch cause,
     newChallenge addr cl opts = OK ch ->
     NewBisectionChallenge ch = ERR cause ->
     newBisectionChallenge newChallenge addr cl opts
     = (Some {| base := ch; BisectionChallenge := None |},
        Some (Wrap cause "Failed to connect to ChallengeManager"))).
Proof.
  unfold newBisectionChallenge, setupContracts.
  destruct (newChallenge addr cl opts) as [ch|err]; cbn [base].
  - destruct (NewBisectionChallenge ch) as [b|cause] eqn:Hb; cbn [fst snd].
    + repeat split; try discriminate.
      * intros _. exists ch, b. auto.
      * intros ch' cause [= <-]. rewrite Hb. discriminate.
    + repeat split; try discriminate.
      intros ch' cause' [= <-]. rewrite Hb. intros [= <-]. reflexivity.
  - repeat split; try discriminate.
    + intros err' [= <-]. reflexivity.
    + intros _. exists err. reflexivity.
Qed.

(** ** [chooseSegment] on any input *)

Lemma tree_lookups_in_range (segmentToChallenge : uint16) (segments : list common.Hash) :
  u16 segmentToChallenge < Z.of_nat (length segments) ->
  exists tree proof node,
    MerkleTree.NewMerkleTree hashPair sentinel segments = Done tree /\
    MerkleTree.GetProofFlat sentinel tree (u16 segmentToChallenge) = Done proof /\
    MerkleTree.GetNode sentinel tree (u16 segmentToChallenge) = Done node.
Proof.
  intros Hlt. pose proof (u16_bounds segmentToChallenge) as Hb.
  assert (Hin : 0 <= u16 segmentToChallenge < Z.of_nat (length segments)) by lia.
  destruct segments as [|s segments]; [simpl in Hin; lia|].
  eexists _, _, _. split; [reflexivity|].
  unfold MerkleTree.GetProofFlat, MerkleTree.GetNode.
  change (MerkleTree.size _) with (length (s :: segments)).
  rewrite (proj2 (in_range_test _ _) Hin). split; reflexivity.
Qed.

(** X15.  On a receiver whose binding is [nil], [chooseSegment] always
    panics and hands nothing to the transaction sink; for an index
    within the segments the panic is the [nil] dereference of the
    binding, raised after the tree has been built. *)
Theorem chooseSegment_unconnected
    (c : bisectionChallenge) (ctx : Z)
    (segmentToChallenge : uint16) (segments : list common.Hash)
    (Hnil : BisectionChallenge c = None) :
  exists p,
    chooseSegment c ctx segmentToChallenge segments = ([], Panicked p) /\
    (u16 segmentToChallenge < Z.of_nat (length segments) -> p = NilPointer).
Proof.
  unfold chooseSegment, int. rewrite int64_u16.
  destruct (Z.ltb_spec (u16 segmentToChallenge) (Z.of_nat (length segments)))
    as [Hlt|Hge].
  - destruct (tree_lookups_in_range segmentToChallenge segments Hlt)
      as (tree & proof & node & -> & Hp & Hn).
    rewrite bind_lift_done, Hp, bind_lift_done, Hn, bind_lift_done, Hnil.
    exists NilPointer. auto.
  - destruct (MerkleTree.NewMerkleTree hashPair sentinel segments) as [tree|p];
      [|exists p; split; [reflexivity|lia]].
    rewrite bind_lift_done.
    destruct (MerkleTree.GetProofFlat sentinel tree _) as [proof|p];
      [|exists p; split; [reflexivity|lia]].
    rewrite bind_lift_done.
    destruct (MerkleTree.GetNode sentinel tree _) as [node|p];
      [|exists p; split; [reflexivity|lia]].
    rewrite bind_lift_done, Hnil. exists NilPointer. auto.
Qed.

(** X16.  Every call of [chooseSegment] ends in one of three ways.  It
    panics, and then nothing was handed to the sink.  Or it submits one
    move that the binding refuses, returns that error and does not wait
    for a receipt.  Or it submits one move, waits for the receipt of the
    transaction the binding returned and returns the outcome of the
    wait.  The move carries the signer of [auth] with the context of
    the call and the index given. *)
Theorem chooseSegment_outcomes
    (c : bisectionChallenge) (ctx : Z)
    (segmentToChallenge : uint16) (segments : list common.Hash) :
  (exists p, chooseSegment c ctx segmentToChallenge segments = ([], Panicked p)) \/
  (exists b m,
     BisectionChallenge c = Some b /\
     moveOpts m = {| From := From (auth (base c)); Context := ctx |} /\
     moveSegment m = u16 segmentToChallenge /\
     match ChooseSegment b m with
     | ERR err =>
         chooseSegment c ctx segmentToChallenge segments
         = ([CallChooseSegment m], Done (Some err))
     | OK tx =>
         chooseSegment c ctx segmentToChallenge segments
         = ([CallChooseSegment m; CallWaitForReceipt tx],
            Done (waitForReceipt (base c) tx))
     end).
Proof.
  unfold chooseSegment, int. rewrite int64_u16.
  destruct (MerkleTree.NewMerkleTree hashPair sentinel segments) as [tree|p];
    [|left; exists p; reflexivity].
  rewrite bind_lift_done.
  destruct (MerkleTree.GetProofFlat sentinel tree _) as [proof|p];
    [|left; exists p; reflexivity].
  rewrite bind_lift_done.
  destruct (MerkleTree.GetNode sentinel tree _) as [node|p];
    [|left; exists p; reflexivity].
  rewrite bind_lift_done.
  destruct (BisectionChallenge c) as [b|]; [|left; exists NilPointer; reflexivity].
  right. exists b, (moveFor c ctx segmentToChallenge tree proof node).
  split; [reflexivity|]. split; [reflexivity|]. split; [reflexivity|].
  unfold moveFor, bigNewInt, emit, ret, bind.
  destruct (ChooseSegment b _); reflexivity.
Qed.

End Bridge.

(** * The properties on the scripted chain

    The chain holds "Continued" events at heights 2, 5 and 9 and its
    head is at height 6. *)

Module OnScript.
Import Script.

(** The connection once [setupContracts] has run. *)
Definition ready : bisectionChallenge := connected (conn chain) binding.

(** The same connection over the client whose header lookups fail. *)
Definition offline : bisectionChallenge := connected (conn offlineChain) binding.

(** An entry at height 9 whose first topic is not the "Continued" digest. *)
Definition foreign : types.Log := logAt 9 5.

(** The notification due for the "Continued" event at height [blk]. *)
Definition noteAt (blk : Z) : arbbridge.Notification :=
  {| arbbridge.BlockHeader := 100 + blk;
     arbbridge.BlockHeight := blk;
     arbbridge.VMID := vm;
     arbbridge.Event :=
       {| arbbridge.SegmentIndex := blk;
          arbbridge.Deadline := {| common.Val := 10 * blk |} |};
     arbbridge.TxHash := 500 + blk |}.

(** C5, counterexample.  An entry with a foreign first topic is not
    skipped when its header lookup fails: [processEvents] returns the
    lookup error. *)
Lemma foreign_topic_lookup_error :
  firstTopic foreign = Done 5 /\
  5 <> ID /\
  processEvents ID offline foreign
  = ([CallHeaderByHash 109], Done (Some (ErrCode 404))) /\
  ~ skipped ID offline foreign.
Proof.
  split; [reflexivity|]. split; [discriminate|]. split; [reflexivity|].
  intros [_ Hres]. discriminate Hres.
Qed.

Lemma processEvents_topic_dispatch_witness :
  firstTopic foreign = Done 5 /\
  5 <> ID /\
  sent (trace_of (processEvents ID ready foreign)) = [] /\
  trace_of (processEvents ID ready foreign) = [CallHeaderByHash 109] /\
  skipped ID ready foreign /\
  result_of (processEvents ID offline foreign) = Done (Some (ErrCode 404)).
Proof.
  assert (Ht : firstTopic foreign = Done 5) by reflexivity.
  assert (Hne : 5 <> ID) by discriminate.
  destruct (processEvents_topic_dispatch ID ready foreign) as (_ & Hready & _).
  destruct (Hready 5 Ht Hne) as (Hsent & Htrace & Hskip & _).
  destruct (processEvents_topic_dispatch ID offline foreign) as (_ & Hoffline & _).
  destruct (Hoffline 5 Ht Hne) as (_ & _ & _ & Herr).
  split; [exact Ht|]. split; [exact Hne|]. split; [exact Hsent|].
  split; [exact Htrace|].
  split; [exact (Hskip {| types.Number := 9; types.Hash := 109 |} eq_refl)|].
  exact (Herr (ErrCode 404) eq_refl).
Defined.

Lemma processEvents_notification_witness :
  processEvents ID ready (logAt 9 ID)
  = ([CallHeaderByHash 109; SendOut (noteAt 9)], Done None).
Proof.
  exact (processEvents_notification ID ready (logAt 9 ID)
           {| types.Number := 9; types.Hash := 109 |} binding
           {| executionchallenge.SegmentIndex := 9;
              executionchallenge.DeadlineTicks := 90 |}
           eq_refl eq_refl eq_refl eq_refl).
Defined.

(** C2, the failing run.  The task takes the [ctx.Done()] case and then
    a received entry: it looks the header up, sends the notification, is
    still selecting and still holds the subscription. *)
Lemma cancelled_task_keeps_running :
  backgroundTask ID ready [CtxDone; LogReceived (logAt 9 ID)]
  = ([CallHeaderByHash 109; SendOut (noteAt 9)], Done Selecting) /\
  sent (trace_of (backgroundTask ID ready [CtxDone; LogReceived (logAt 9 ID)]))
  = [noteAt 9] /\
  reads (trace_of (backgroundTask ID ready [CtxDone; LogReceived (logAt 9 ID)]))
  = [CallHeaderByHash 109] /\
  held true (trace_of (backgroundTask ID ready [CtxDone; LogReceived (logAt 9 ID)]))
  = true /\
  backgroundTask ID ready [CtxDone] = ([], Done Selecting).
Proof. repeat split. Qed.

(** C3, counterexample.  On the empty sequence every index is out of
    range, and the failure is [InvalidInput] from the tree build. *)
Lemma chooseSegment_empty_invalid_input :
  Z.of_nat (length (@nil common.Hash)) <= u16 u16_0 /\
  chooseSegment mix 0 ready 7 u16_0 [] = ([], Panicked InvalidInput) /\
  result_of (chooseSegment mix 0 ready 7 u16_0 []) <> Panicked IndexOutOfRange.
Proof.
  split; [simpl; lia|]. split; [reflexivity|]. discriminate.
Qed.

Lemma chooseSegment_out_of_range_witness :
  Z.of_nat (length [1; 2; 3; 4]) <= u16 u16_4 /\
  chooseSegment mix 0 ready 7 u16_4 [1; 2; 3; 4] = ([], Panicked IndexOutOfRange) /\
  submitted (trace_of (chooseSegment mix 0 ready 7 u16_4 [1; 2; 3; 4])) = [].
Proof.
  split; [simpl; lia|].
  apply (chooseSegment_out_of_range mix 0 ready 7 u16_4 [1; 2; 3; 4]).
  simpl; lia.
Defined.

Lemma chooseSegment_submits_witness :
  u16 u16_2 < Z.of_nat (length [1; 2; 3; 4]) /\
  exists tree proof node,
    MerkleTree.NewMerkleTree mix 0 [1; 2; 3; 4] = Done tree /\
    MerkleTree.GetProofFlat 0 tree (u16 u16_2) = Done proof /\
    MerkleTree.GetNode 0 tree (u16 u16_2) = Done node /\
    node = nth (Z.to_nat (u16 u16_2)) [1; 2; 3; 4] 0 /\
    chooseSegment mix 0 ready 7 u16_2 [1; 2; 3; 4] =
    match ChooseSegment binding (moveFor 0 ready 7 u16_2 tree proof node) with
    | ERR err =>
        ([CallChooseSegment (moveFor 0 ready 7 u16_2 tree proof node)],
         Done (Some err))
    | OK tx =>
        ([CallChooseSegment (moveFor 0 ready 7 u16_2 tree proof node);
          CallWaitForReceipt tx],
         Done (waitForReceipt (base ready) tx))
    end.
Proof.
  split; [simpl; lia|].
  apply (chooseSegment_submits mix 0 ready binding 7 u16_2 [1; 2; 3; 4]).
  - reflexivity.
  - simpl; lia.
Defined.

(** The move of the round-trip example: proof of length two, leaf [3]. *)
Example chooseSegment_round_trip :
  chooseSegment mix 0 ready 7 u16_2 [1; 2; 3; 4]
  = ([CallChooseSegment
        {| moveOpts := {| From := 42; Context := 7 |};
           moveSegment := 2; moveProof := [4; 34]; moveRoot := 1153;
           moveLeaf := 3 |};
      CallWaitForReceipt {| txId := 2 |}],
     Done None) /\
  MerkleTree.recompute mix [4; 34] 2 3 = 1153.
Proof. split; reflexivity. Qed.

Lemma backgroundTask_fails_fast_witness :
  liveLoop ID ready [LogReceived (logAt 9 ID)]
  = ([CallHeaderByHash 109; SendOut (noteAt 9)], Done Selecting) /\
  LiveFailure ID ready (SubErr (ErrCode 1)) (ErrCode 1) /\
  backgroundTask ID ready
    ([LogReceived (logAt 9 ID)] ++ SubErr (ErrCode 1) :: [LogReceived (logAt 9 ID)])
  = (([CallHeaderByHash 109; SendOut (noteAt 9)]
        ++ lookups (SubErr (ErrCode 1)) ++ [SendErr (ErrCode 1); Unsubscribe])%list,
     Done Returned) /\
  errors (trace_of (backgroundTask ID ready
    ([LogReceived (logAt 9 ID)] ++ SubErr (ErrCode 1) :: [LogReceived (logAt 9 ID)])))
  = [ErrCode 1] /\
  sent (trace_of (backgroundTask ID ready
    ([LogReceived (logAt 9 ID)] ++ SubErr (ErrCode 1) :: [LogReceived (logAt 9 ID)])))
  = sent [CallHeaderByHash 109; SendOut (noteAt 9)] /\
  held true (trace_of (backgroundTask ID ready
    ([LogReceived (logAt 9 ID)] ++ SubErr (ErrCode 1) :: [LogReceived (logAt 9 ID)])))
  = false.
Proof.
  split; [reflexivity|]. split; [apply SubscriptionFailure|].
  apply (backgroundTask_fails_fast ID ready [LogReceived (logAt 9 ID)]
           [LogReceived (logAt 9 ID)] (SubErr (ErrCode 1)) (ErrCode 1)).
  - reflexivity.
  - apply SubscriptionFailure.
Defined.

(** C8, counterexample.  The embedded challenge has opened a
    subscription and started a task; the head read then fails.  The call
    returns the error while a task runs and a subscription is held. *)
Lemma StartConnection_failure_keeps_base_task :
  baseStartConnection (base busy) = ([Subscribed; Spawn], Done None) /\
  StartupFailure ID busy (ErrCode 503) /\
  StartConnection ID busy
  = ([Subscribed; Spawn; CallHeaderByNumber],
     Done (connected busy binding, Some (ErrCode 503))) /\
  existsb is_spawn (trace_of (StartConnection ID busy)) = true /\
  held false (trace_of (StartConnection ID busy)) = true.
Proof.
  split; [reflexivity|].
  split; [apply (HeadFailure ID busy binding); reflexivity|].
  repeat split.
Qed.

Lemma StartConnection_returns_failure_witness :
  baseStartConnection (base busy) = ([Subscribed; Spawn], Done None) /\
  StartupFailure ID busy (ErrCode 503) /\
  exists c',
    result_of (StartConnection ID busy) = Done (c', Some (ErrCode 503)) /\
    errors (trace_of (StartConnection ID busy)) = errors [Subscribed; Spawn] /\
    spawned (trace_of (StartConnection ID busy)) = spawned [Subscribed; Spawn] /\
    (forall now, held now (trace_of (StartConnection ID busy))
                 = held now [Subscribed; Spawn]) /\
    exists own,
      trace_of (StartConnection ID busy) = ([Subscribed; Spawn] ++ own)%list /\
      forallb quiet own = true.
Proof.
  split; [reflexivity|].
  split; [apply (HeadFailure ID busy binding); reflexivity|].
  apply (StartConnection_returns_failure ID busy [Subscribed; Spawn] (ErrCode 503)).
  - reflexivity.
  - apply (HeadFailure ID busy binding); reflexivity.
Defined.

(** C1, counterexample.  The header of the block at height 5 does not
    resolve.  The matching entry at height 5 lies at or below the head
    (height 6), yet the call returns the lookup error after the
    notification for height 2: the entry at height 5 is never notified
    and no subscription is requested. *)
Lemma synchronizer_stops_at_unresolved_entry :
  In (logAt 5 ID) (chainLogs flakyChain) /\
  matches ID (conn flakyChain) (logAt 5 ID) = true /\
  types.BlockNumber (logAt 5 ID) <= types.Number (chainHead flakyChain) /\
  synchronize ID (conn flakyChain) 3
  = ([CallHeaderByNumber;
      CallFilterLogs
        {| ethereum.FromBlock := None; ethereum.ToBlock := Some 6;
           ethereum.Addresses := [vm]; ethereum.Topics := [[ID]] |};
      CallHeaderByHash 102; SendOut (noteAt 2); CallHeaderByHash 105],
     Done (Some (ErrCode 404))) /\
  sent (trace_of (synchronize ID (conn flakyChain) 3)) = [noteAt 2].
Proof.
  split; [right; left; reflexivity|].
  split; [reflexivity|]. split; [discriminate|]. split; reflexivity.
Qed.

(** The scripted run: the chain has grown to height 9 when the history
    is queried; the events at heights 2 and 5 come through the history,
    the event at height 9 through the channel. *)
Lemma session_no_gap_no_duplicate_witness :
  (forall l, In l (chainLogs chain) -> matches ID (conn chain) l = true ->
             resolves (conn chain) binding l) /\
  exists histTrace liveTrace,
    synchronize ID (conn chain) 1
    = (([] ++ [CallHeaderByNumber;
               CallFilterLogs
                 {| ethereum.FromBlock := None; ethereum.ToBlock := Some 6;
                    ethereum.Addresses := [vm]; ethereum.Topics := [[ID]] |}]
           ++ histTrace
           ++ [CallSubscribeFilterLogs
                 {| ethereum.FromBlock := Some (6 + 1); ethereum.ToBlock := None;
                    ethereum.Addresses := [vm]; ethereum.Topics := [[ID]] |};
               Subscribed; Spawn]
           ++ liveTrace)%list,
       Done None) /\
    channel ID (conn chain) = live ID (conn chain) 6 /\
    map Some (sent histTrace)
    = map (notify (conn chain) binding) (historical ID (conn chain) 6) /\
    map Some (sent liveTrace)
    = map (notify (conn chain) binding) (firstn 1 (live ID (conn chain) 6)) /\
    Permutation (historical ID (conn chain) 6 ++ live ID (conn chain) 6)
                (filter (matches ID (conn chain)) (chainLogs chain)) /\
    (forall l, In l (historical ID (conn chain) 6) ->
               In l (live ID (conn chain) 6) -> False) /\
    (Sorted Z.le (map types.BlockNumber (chainLogs chain)) ->
     (historical ID (conn chain) 6 ++ live ID (conn chain) 6)%list
     = filter (matches ID (conn chain)) (chainLogs chain) /\
     Sorted Z.le (map arbbridge.BlockHeight (sent histTrace ++ sent liveTrace))).
Proof.
  assert (Hentries : forall l, In l (chainLogs chain) ->
                               matches ID (conn chain) l = true ->
                               resolves (conn chain) binding l).
  { simpl. intros l [<-|[<-|[<-|[]]]] _; eexists; split; reflexivity. }
  split; [exact Hentries|].
  exact (session_no_gap_no_duplicate ID (conn chain) binding [] 1%nat
           eq_refl eq_refl eq_refl eq_refl eq_refl Hentries).
Defined.

(** What the scripted run sends, spelled out. *)
Example session_scripted_run :
  sent (trace_of (synchronize ID (conn chain) 3)) = [noteAt 2; noteAt 5; noteAt 9].
Proof. reflexivity. Qed.

End OnScript.

(** * The further properties on the scripted chain *)

Module OnScriptMore.
Import Script OnScript.

Definition flaky : bisectionChallenge := connected (conn flakyChain) binding.

Lemma StartConnection_never_panics_witness :
  baseStartConnection (base (conn chain)) = ([], Done None) /\
  exists own r,
    StartConnection ID (conn chain) = (([] ++ own)%list, Done r) /\
    errors own = [].
Proof.
  split; [reflexivity|].
  exact (StartConnection_never_panics ID (conn chain) [] None eq_refl).
Defined.

Lemma StartConnection_error_is_startup_failure_witness :
  result_of (StartConnection ID (conn headlessChain))
  = Done (connected (conn headlessChain) binding, Some (ErrCode 503)) /\
  StartupFailure ID (conn headlessChain) (ErrCode 503).
Proof.
  split; [reflexivity|].
  exact (StartConnection_error_is_startup_failure ID (conn headlessChain)
           (connected (conn headlessChain) binding) [] (ErrCode 503)
           eq_refl eq_refl).
Defined.

Lemma StartConnection_success_shape_witness :
  result_of (StartConnection ID (conn chain)) = Done (ready, None) /\
  exists b,
    NewBisectionChallenge (base (conn chain)) = OK b /\
    ready = connected (conn chain) b /\
    trace_of (StartConnection ID (conn chain))
    = ([] ++ [CallHeaderByNumber;
              CallFilterLogs
                {| ethereum.FromBlock := None; ethereum.ToBlock := Some 6;
                   ethereum.Addresses := [vm]; ethereum.Topics := [[ID]] |}]
          ++ trace_of (processHistory ID ready (historical ID (conn chain) 6))
          ++ [CallSubscribeFilterLogs
                {| ethereum.FromBlock := Some (6 + 1); ethereum.ToBlock := None;
                   ethereum.Addresses := [vm]; ethereum.Topics := [[ID]] |};
              Subscribed; Spawn])%list /\
    forallb lookupOrNotify
      (trace_of (processHistory ID ready (historical ID (conn chain) 6))) = true /\
    spawned (trace_of (StartConnection ID (conn chain))) = S (spawned []) /\
    (forall now, held now (trace_of (StartConnection ID (conn chain))) = true).
Proof.
  split; [reflexivity|].
  exact (StartConnection_success_shape ID (conn chain) ready [] eq_refl eq_refl).
Defined.

(** The chain has grown to height 9 when the history is queried; the
    query still returns the entries at heights 2 and 5 only. *)
Lemma historical_live_split_witness :
  filterFault (client (base (conn chain))) = None /\
  exists hist,
    result_of (FilterLogs (client (base (conn chain)))
                 (historyFilter ID (conn chain) (chainHead (client (base (conn chain))))))
    = Done (OK hist) /\
    Permutation
      (hist ++ subscriptionFeed (client (base (conn chain)))
                 (liveFilter ID (conn chain) (chainHead (client (base (conn chain))))))
      (filter (matches ID (conn chain)) (chainLogs (client (base (conn chain))))) /\
    forall l,
      In l hist ->
      In l (subscriptionFeed (client (base (conn chain)))
              (liveFilter ID (conn chain) (chainHead (client (base (conn chain)))))) ->
      False.
Proof.
  split; [reflexivity|].
  exact (historical_live_split ID (conn chain) eq_refl).
Defined.

(** The entry at height 5 fails; the entry at height 9 is never looked up. *)
Lemma processHistory_stops_at_failure_witness :
  result_of (processHistory ID flaky [logAt 2 ID]) = Done None /\
  result_of (processEvents ID flaky (logAt 5 ID)) <> Done None /\
  processHistory ID flaky ([logAt 2 ID] ++ logAt 5 ID :: [logAt 9 ID])
  = ((trace_of (processHistory ID flaky [logAt 2 ID])
        ++ trace_of (processEvents ID flaky (logAt 5 ID)))%list,
     result_of (processEvents ID flaky (logAt 5 ID))).
Proof.
  split; [reflexivity|]. split; [discriminate|].
  apply (processHistory_stops_at_failure ID flaky [logAt 2 ID] [logAt 9 ID] (logAt 5 ID)).
  - reflexivity.
  - discriminate.
Defined.

Lemma backgroundTask_notifies_received_only_witness :
  In (noteAt 9)
     (sent (trace_of (backgroundTask ID ready [CtxDone; LogReceived (logAt 9 ID)]))) /\
  exists l header,
    In l (received [CtxDone; LogReceived (logAt 9 ID)]) /\
    firstTopic l = Done ID /\
    headerOf (client (base ready)) (types.BlockHash l) = OK header /\
    arbbridge.BlockHeader (noteAt 9) = types.Hash header /\
    arbbridge.BlockHeight (noteAt 9) = types.Number header /\
    arbbridge.VMID (noteAt 9) = address (base ready) /\
    arbbridge.TxHash (noteAt 9) = types.TxHash l.
Proof.
  assert (Hsent : In (noteAt 9)
                     (sent (trace_of (backgroundTask ID ready
                                        [CtxDone; LogReceived (logAt 9 ID)])))).
  { left. reflexivity. }
  split; [exact Hsent|].
  exact (backgroundTask_notifies_received_only ID ready
           [CtxDone; LogReceived (logAt 9 ID)] (noteAt 9) Hsent).
Defined.

Lemma backgroundTask_safe_on_feed_witness :
  incl (received [LogReceived (logAt 9 ID); CtxDone])
       (subscriptionFeed (client (base (conn chain)))
          (liveFilter ID (connected (conn chain) binding)
             (chainHead (client (base (conn chain)))))) /\
  exists s,
    result_of (backgroundTask ID (connected (conn chain) binding)
                 [LogReceived (logAt 9 ID); CtxDone]) = Done s.
Proof.
  assert (Hfeed : incl (received [LogReceived (logAt 9 ID); CtxDone])
                       (subscriptionFeed (client (base (conn chain)))
                          (liveFilter ID (connected (conn chain) binding)
                             (chainHead (client (base (conn chain))))))).
  { intros l [<-|[]]. left. reflexivity. }
  split; [exact Hfeed|].
  exact (backgroundTask_safe_on_feed ID (conn chain) binding
           [LogReceived (logAt 9 ID); CtxDone] Hfeed).
Defined.

Lemma chooseSegment_unconnected_witness :
  BisectionChallenge (conn chain) = None /\
  exists p,
    chooseSegment mix 0 (conn chain) 7 u16_2 [1; 2; 3; 4] = ([], Panicked p) /\
    (u16 u16_2 < Z.of_nat (length [1; 2; 3; 4]) -> p = NilPointer).
Proof.
  split; [reflexivity|].
  exact (chooseSegment_unconnected mix 0 (conn chain) 7 u16_2 [1; 2; 3; 4] eq_refl).
Defined.

End OnScriptMore.
